(** * expressure: the logging facade, the request context and the HTTP
      request logging middleware

    A shallow embedding of [src/app/libs/logger.lib.ts] (the facade, the
    [mixin] and the [flush] wrapper) and of
    [src/app/middlewares/expressLogger.middleware.ts] (the callbacks handed
    to pino-http), with the properties the specification states about them. *)

From stdpp Require Import base option strings gmap fin_maps pretty.
From Stdlib Require Import ZArith Lia.

Local Open Scope Z_scope.
Local Open Scope string_scope.

(** ** JavaScript values *)

Module JS.

(** The values the logging code inspects.  A number is an integer or NaN:
    no branch of the code depends on a fractional part.  An [Error] carries
    its [name], [message] and [stack]; none of them is an own enumerable
    property.  An object is a finite map from property names to values; the
    order of the keys is not observable in what follows.  Functions, symbols
    and bigints are left out: the code treats them as it treats a number.
    An [Error] is one that [new Error(message)] builds; an error that was
    given own properties, as a [CustomError] of [errors.helper.ts] is, is
    read through those properties, as an object. *)
#[warnings="-register-all"]
Inductive value : Type :=
  | VUndefined
  | VNull
  | VBool (b : bool)
  | VNum (z : Z)
  | VNaN
  | VStr (s : string)
  | VArr (l : list value)
  | VError (name message stack : string)
  | VObj (o : gmap string value).

(** [typeof v] *)
Definition typeof (v : value) : string :=
  match v with
  | VUndefined => "undefined"
  | VNull => "object"
  | VBool _ => "boolean"
  | VNum _ | VNaN => "number"
  | VStr _ => "string"
  | VArr _ | VError _ _ _ | VObj _ => "object"
  end.

(** [Array.isArray(v)] *)
Definition Array_isArray (v : value) : bool :=
  match v with VArr _ => true | _ => false end.

(** [v === null] *)
Definition is_null (v : value) : bool :=
  match v with VNull => true | _ => false end.

(** ToBoolean: what [if (v)], [v && _], [v || _] and [v ? _ : _] test. *)
Definition truthy (v : value) : bool :=
  match v with
  | VUndefined | VNull | VNaN => false
  | VBool b => b
  | VNum z => negb (z =? 0)%Z
  | VStr s => negb (String.eqb s "")
  | VArr _ | VError _ _ _ | VObj _ => true
  end.

(** The own enumerable string-keyed properties of a value, which is what an
    object spread [{...v}] and a rest pattern [{...rest} = v] copy. *)
Definition own_props (v : value) : gmap string value :=
  match v with
  | VObj o => o
  | VArr l => list_to_map (imap (fun i x => (pretty i, x)) l)
  | VStr s =>
      list_to_map (imap (fun i c => (pretty i, VStr (String c EmptyString)))
                        (String.list_ascii_of_string s))
  | VUndefined | VNull | VBool _ | VNum _ | VNaN | VError _ _ _ => ∅
  end.

(** [v[k]] for a [v] that is neither [null] nor [undefined]. *)
Definition get_prop (v : value) (k : string) : value :=
  match v with
  | VObj o => default VUndefined (o !! k)
  | VArr l =>
      if String.eqb k "length" then VNum (Z.of_nat (length l))
      else default VUndefined (own_props v !! k)
  | VError n m s =>
      if String.eqb k "name" then VStr n
      else if String.eqb k "message" then VStr m
      else if String.eqb k "stack" then VStr s
      else VUndefined
  | VStr s =>
      if String.eqb k "length" then VNum (Z.of_nat (String.length s))
      else default VUndefined (own_props v !! k)
  | VUndefined | VNull | VBool _ | VNum _ | VNaN => VUndefined
  end.

(** [{...a, ...b}]: the keys of both, those of [b] winning. *)
Definition spread2 (a b : gmap string value) : gmap string value := b ∪ a.

End JS.

(** ** Effects: state and exceptions *)

Module Effect.

Inductive exn : Type :=
  | TypeError.

Inductive outcome (A : Type) : Type :=
  | Returns (a : A)
  | Throws (e : exn).
Arguments Returns {A} a.
Arguments Throws {A} e.

(** A computation over a state [S] that returns an [A] or throws. *)
Definition Eff (S A : Type) : Type := S -> outcome A * S.

Definition ret {S A} (a : A) : Eff S A := fun s => (Returns a, s).

Definition throw {S A} (e : exn) : Eff S A := fun s => (Throws e, s).

Definition bind {S A B} (c : Eff S A) (k : A -> Eff S B) : Eff S B :=
  fun s =>
    match c s with
    | (Returns a, s') => k a s'
    | (Throws e, s') => (Throws e, s')
    end.

Definition gets {S A} (f : S -> A) : Eff S A := fun s => (Returns (f s), s).

Definition modify {S} (f : S -> S) : Eff S unit := fun s => (Returns tt, f s).

(** The computation returns normally from the state [s]. *)
Definition returns_normally {S A} (c : Eff S A) (s : S) : Prop :=
  exists a, fst (c s) = Returns a.

End Effect.

Import JS Effect.

Declare Scope eff_scope.
Delimit Scope eff_scope with eff.
Notation "x <- c ;; k" := (bind c (fun x => k))
  (at level 100, c at next level, right associativity) : eff_scope.

(** ** What the process writes: log records and request summaries *)

Inductive Level : Type := info | warn | error.

(** One line the structured logger writes.  [merging] is the object the
    logger was called with, [message] the message it was called with. *)
Record LogRecord : Type := mkLogRecord {
  level : Level;
  time : string;
  baseFields : gmap string value;
  dynamicFields : gmap string value;
  merging : option value;
  message : option value
}.

(** What the request middleware hands to the logger for one request. *)
Record Summary : Type := mkSummary {
  s_level : Level;
  s_props : gmap string value;
  s_req : gmap string value;
  s_res : gmap string value;
  s_message : string
}.

(** The state the code under study reads and writes: the context of the
    active logical request, the clock, the lines written so far, the
    summaries logged so far and the number of times the middleware passed
    control on. *)
Record World : Type := mkWorld {
  context : gmap string value;
  now : string;
  written : list LogRecord;
  summaries : list Summary;
  nextCalls : nat
}.

Definition with_context (f : gmap string value -> gmap string value) (w : World) : World :=
  mkWorld (f (context w)) (now w) (written w) (summaries w) (nextCalls w).

Definition with_written (f : list LogRecord -> list LogRecord) (w : World) : World :=
  mkWorld (context w) (now w) (f (written w)) (summaries w) (nextCalls w).

Definition with_summaries (f : list Summary -> list Summary) (w : World) : World :=
  mkWorld (context w) (now w) (written w) (f (summaries w)) (nextCalls w).

Definition with_nextCalls (f : nat -> nat) (w : World) : World :=
  mkWorld (context w) (now w) (written w) (summaries w) (f (nextCalls w)).

(** ** The request context store (express-http-context)

    The library is an external collaborator.  Its state is modelled for one
    logical request: [context] is what that request's continuations see,
    [set] writes it and [get] reads it, [undefined] when the key was never
    set. *)

Module httpContext.

Definition get (key : string) : Eff World value :=
  gets (fun w => default VUndefined (context w !! key)).

Definition set (key : string) (v : value) : Eff World unit :=
  modify (with_context (fun c => <[key := v]> c)).

End httpContext.

(** ** The logging library: [logger.lib.ts] *)

Module Logger.

Local Open Scope eff_scope.

(** *** The structured logger

    pino itself is an external collaborator; what the source fixes is its
    configuration: [base], [mixin], the message key and the timestamp.  A
    call of a level method takes [(message)], [(mergingObject, message)] or
    [(mergingObject)] and writes one line. *)

Section StructuredLogger.

(** The parsed [package.json]. *)
Variable packageInfo : gmap string value.

(** [const base = { projectName: packageInfo.name, projectVersion: packageInfo.version }] *)
Definition base : gmap string value :=
  {[ "projectName" := default VUndefined (packageInfo !! "name");
     "projectVersion" := default VUndefined (packageInfo !! "version") ]}.

(** [const mixin = () => { const requestName = httpContext.get('requestName');
      return requestName ? { requestName } : {}; }] *)
Definition mixin : Eff World (gmap string value) :=
  requestName <- httpContext.get "requestName" ;;
  ret (if truthy requestName then {[ "requestName" := requestName ]} else ∅).

(** The merging object of a call: the first argument, unless the call is
    the message alone. *)
Definition call_merging (args : list value) : option value :=
  match args with
  | [] => None
  | [a] => if String.eqb (typeof a) "string" then None else Some a
  | a :: _ :: _ => Some a
  end.

(** The message of a call. *)
Definition call_message (args : list value) : option value :=
  match args with
  | [] => None
  | [a] => if String.eqb (typeof a) "string" then Some a else None
  | _ :: m :: _ => Some m
  end.

(** [pinoLogger.info], [pinoLogger.warn], [pinoLogger.error]: the mixin and
    the timestamp are evaluated when the line is written. *)
Definition pinoLogger (lvl : Level) (args : list value) : Eff World unit :=
  dyn <- mixin ;;
  t <- gets now ;;
  modify (with_written (fun l =>
    (l ++ [mkLogRecord lvl t base dyn (call_merging args) (call_message args)])%list)).

End StructuredLogger.

(** *** The facade *)

Section Facade.

Context {S : Type}.

(** The level method of the structured logger the handler is built on. *)
Variable logMethod : list value -> Eff S unit.

(** [const { message, data, ...rest } = arg1;] throws a TypeError on
    [null] and [undefined]; any other value is read as an object. *)
Definition destructure (arg1 : value) : Eff S (value * value * gmap string value) :=
  match arg1 with
  | VUndefined | VNull => throw TypeError
  | _ =>
      ret (get_prop arg1 "message", get_prop arg1 "data",
           delete "data" (delete "message" (own_props arg1)))
  end.

(** [createLogHandler(logMethod)(arg1, arg2)]; an omitted [arg2] is
    [undefined]. *)
Definition createLogHandler (arg1 arg2 : value) : Eff S unit :=
  if String.eqb (typeof arg1) "string" then
    if truthy arg2 then logMethod [arg2; arg1]
    else logMethod [arg1]
  else
    parts <- destructure arg1 ;;
    let '(message, data, rest) := parts in
    let logObj :=
      if negb (is_null data) && String.eqb (typeof data) "object" && negb (Array_isArray data)
      then spread2 (own_props data) rest
      else rest in
    if truthy message && String.eqb (typeof message) "string"
    then logMethod [VObj logObj; message]
    else logMethod [VObj logObj].

End Facade.

(** [export const logger = Object.freeze({ info, warn, error, flush })] *)

Definition logger_info (packageInfo : gmap string value) : value -> value -> Eff World unit :=
  createLogHandler (pinoLogger packageInfo info).

Definition logger_warn (packageInfo : gmap string value) : value -> value -> Eff World unit :=
  createLogHandler (pinoLogger packageInfo warn).

Definition logger_error (packageInfo : gmap string value) : value -> value -> Eff World unit :=
  createLogHandler (pinoLogger packageInfo error).

(** The level method of the facade for a level. *)
Definition logger_at (packageInfo : gmap string value) (lvl : Level) : value -> value -> Eff World unit :=
  match lvl with
  | info => logger_info packageInfo
  | warn => logger_warn packageInfo
  | error => logger_error packageInfo
  end.

(** *** [flush] *)

(** The state of a promise. *)
Inductive Promise : Type :=
  | Pending
  | Fulfilled (v : value)
  | Rejected (reason : value).

(** [resolve(v)] and [reject(e)] settle a pending promise and leave a
    settled one as it is. *)
Definition resolve (v : value) (p : Promise) : Promise :=
  match p with Pending => Fulfilled v | _ => p end.

Definition reject (e : value) (p : Promise) : Promise :=
  match p with Pending => Rejected e | _ => p end.

(** The callback handed to [pinoLogger.flush]:
    [(error?: Error) => { if (error) reject(error); else resolve(); }] *)
Definition flush_callback (err : value) (p : Promise) : Promise :=
  if truthy err then reject err p else resolve VUndefined p.

(** [logger.flush()]: the promise, after the sink has invoked the callback
    with each of [signals] in turn ([undefined] for a call without
    argument; no signal yet leaves the promise pending). *)
Definition flush (signals : list value) : Promise :=
  fold_left (fun p err => flush_callback err p) signals Pending.

End Logger.

(** ** The request logging middleware: [expressLogger.middleware.ts] *)

Module ExpressLogger.

Local Open Scope eff_scope.

(** What the routing layer supplies for a request. *)
Record Route : Type := mkRoute { path : string }.

Record Request : Type := mkRequest {
  method : string;
  url : string;
  baseUrl : string;
  route : option Route;
  headers : value;
  query : value;
  body : value
}.

(** What [res.getHeader] returns: [number | string | string[] | undefined],
    and the [null] the test doubles return. *)
Inductive HeaderValue : Type :=
  | HUndefined
  | HNull
  | HNum (z : Z)
  | HStr (s : string)
  | HList (l : list string).

(** What the middleware reads of a response: [res.statusCode],
    [res.statusMessage], [res.locals.error] ([undefined] when no handler set
    it), [res.responseTime] ([None] when absent or [undefined]) and
    [res.getHeader('Content-Length')]. *)
Record Response : Type := mkResponse {
  statusCode : Z;
  statusMessage : string;
  locals_error : value;
  responseTime : option Z;
  contentLength : HeaderValue
}.

(** [autoLogging.ignore] *)
Definition suppressed : list string :=
  ["/api/v1/health/readiness"; "/api/v1/health/liveness"].

Definition autoLogging_ignore (req : Request) : bool :=
  existsb (String.eqb (url req)) suppressed.

(** [customLogLevel] *)
Definition customLogLevel (req : Request) (res : Response) : Level :=
  if (400 <=? statusCode res)%Z then error else info.

(** [serializers] *)
Definition serializers_req (req : Request) : gmap string value :=
  {[ "headers" := headers req; "query" := query req; "body" := body req ]}.

Definition serializers_res (res : Response) : gmap string value :=
  {[ "statusCode" := VNum (statusCode res) ]}.

Definition serializers_err (err : value) : gmap string value :=
  {[ "type" := get_prop err "name"; "message" := get_prop err "message";
     "stack" := get_prop err "stack" ]}.

Section Callbacks.

(** The stack trace the engine records in an [Error] built in
    [customProps] with the given message. *)
Variable captureStack : string -> string.

(** [new Error(message)] *)
Definition new_Error (msg : string) : value :=
  VError "Error" msg (captureStack msg).

(** [`${req.method} - ${req.baseUrl}${req.route.path}`] *)
Definition requestName (req : Request) (r : Route) : string :=
  method req ++ " - " ++ baseUrl req ++ path r.

(** [customProps] *)
Definition customProps (req : Request) (res : Response) : Eff World (gmap string value) :=
  let meta : gmap string value :=
    {[ "type" := VStr "http_request";
       "route" := VStr (match route req with Some r => path r | None => "N/A" end) ]} in
  _ <- match route req with
       | Some r => httpContext.set "requestName" (VStr (requestName req r))
       | None => ret tt
       end ;;
  let meta :=
    if (400 <=? statusCode res)%Z then
      <[ "error" :=
           if truthy (locals_error res) then locals_error res
           else new_Error (if String.eqb (statusMessage res) "" then "Request failed"
                           else statusMessage res) ]> meta
    else meta in
  ret meta.

(** [res.responseTime ? `${res.responseTime}ms` : '0ms'] *)
Definition time_text (res : Response) : string :=
  match responseTime res with
  | Some t => if (t =? 0)%Z then "0ms" else pretty t ++ "ms"
  | None => "0ms"
  end.

(** [res.getHeader('Content-Length') || '0b'], as the template literal
    renders it. *)
Definition size_text (res : Response) : string :=
  match contentLength res with
  | HUndefined | HNull => "0b"
  | HNum z => if (z =? 0)%Z then "0b" else pretty z
  | HStr s => if String.eqb s "" then "0b" else s
  | HList l => String.concat "," l
  end.

(** [customSuccessMessage] and [customErrorMessage] *)
Definition customSuccessMessage (req : Request) (res : Response) : string :=
  method req ++ " " ++ url req ++ " " ++ pretty (statusCode res) ++ " "
    ++ time_text res ++ " - " ++ size_text res.

Definition customErrorMessage (req : Request) (res : Response) : string :=
  method req ++ " " ++ url req ++ " " ++ pretty (statusCode res) ++ " "
    ++ time_text res ++ " - " ++ size_text res.

(** [next()] *)
Definition next : Eff World unit := modify (with_nextCalls S).

(** The middleware pino-http builds from these callbacks.  pino-http is an
    external collaborator; the callbacks are run in its order.

    On entry it evaluates [customProps] for the logger of the request,
    before it consults [autoLogging.ignore]; the answer of [ignore] decides
    whether the response is logged when it finishes; then [next()].  The
    result tells whether the response will be logged. *)
Definition loggingMiddleware (req : Request) (res : Response) : Eff World bool :=
  _ <- customProps req res ;;
  let shouldLog := negb (autoLogging_ignore req) in
  _ <- next ;;
  ret shouldLog.

(** When the response finishes it takes the level from [customLogLevel],
    evaluates [customProps] again, builds the message (the error message
    from status 500 on, the success message below; the source builds both
    alike) and logs the summary. *)
Definition onResFinished (req : Request) (res : Response) : Eff World unit :=
  let logLevel := customLogLevel req res in
  let serializedReq := serializers_req req in
  let serializedRes := serializers_res res in
  props <- customProps req res ;;
  let msg :=
    if (500 <=? statusCode res)%Z then customErrorMessage req res
    else customSuccessMessage req res in
  modify (with_summaries (fun l =>
    (l ++ [mkSummary logLevel props serializedReq serializedRes msg])%list)).

(** The middleware over the whole cycle of a request, entry and finish, for
    a request and a response taken as they are when the response
    finishes. *)
Definition expressLogger (req : Request) (res : Response) : Eff World unit :=
  shouldLog <- loggingMiddleware req res ;;
  if shouldLog then onResFinished req res else ret tt.

End Callbacks.

End ExpressLogger.

(** ** The error helpers: [dictionaries.helper.ts] and [errors.helper.ts] *)

Module ErrorsHelper.

Local Open Scope eff_scope.

(** The constants of [http-status-codes] the code uses. *)
Module StatusCodes.
Definition OK : Z := 200.
Definition NOT_FOUND : Z := 404.
Definition INTERNAL_SERVER_ERROR : Z := 500.
End StatusCodes.

(** An entry of the dictionary: [{ code, statusCode, message }]. *)
Record DictionaryErrorResponse : Type := mkDictionaryError {
  entry_code : string;
  entry_statusCode : Z;
  entry_message : string
}.

Definition databaseErrorsDictionary : list DictionaryErrorResponse :=
  [mkDictionaryError "RECORD_NOT_FOUND" StatusCodes.NOT_FOUND
     "Unable to find the record with the given id."].

(** [export const errorsDictionary = [...databaseErrorsDictionary]] *)
Definition errorsDictionary : list DictionaryErrorResponse :=
  (databaseErrorsDictionary ++ [])%list.

(** [{ statusCode, message }], as [defaultError] builds it: either field is
    whatever value the error carried. *)
Record CustomErrorObject : Type := mkCustomErrorObject {
  ceo_statusCode : value;
  ceo_message : value
}.

(** One call of [res.status(statusCode).send(body)]: what the handler hands
    to the response object, an external collaborator. *)
Record Sent : Type := mkSent {
  sent_status : value;
  sent_body : gmap string value
}.

(** [v[k]], which throws a TypeError on [null] and [undefined]. *)
Definition read_prop {S : Type} (v : value) (k : string) : Eff S value :=
  match v with
  | VUndefined | VNull => throw TypeError
  | _ => ret (get_prop v k)
  end.

(** [v === n] for a number [n]. *)
Definition strict_eq_number (v : value) (n : Z) : bool :=
  match v with
  | VNum z => (z =? n)%Z
  | _ => false
  end.

(** [v === s] for a string [s]. *)
Definition strict_eq_string (v : value) (s : string) : bool :=
  match v with
  | VStr t => String.eqb t s
  | _ => false
  end.

(** [defaultError]; its argument is never [null] or [undefined] when
    [errorHandler] calls it. *)
Definition defaultError (err : value) : CustomErrorObject :=
  mkCustomErrorObject
    (if truthy (get_prop err "statusCode") then get_prop err "statusCode"
     else VNum StatusCodes.INTERNAL_SERVER_ERROR)
    (if truthy (get_prop err "message") then get_prop err "message"
     else VStr "Internal server error.").

(** [dictionaryError]: [errorsDictionary.find((error) => error.code === code)] *)
Definition dictionaryError (code : value) : option DictionaryErrorResponse :=
  find (fun entry => strict_eq_string code (entry_code entry)) errorsDictionary.

(** [res.status(statusCode).send({ message })] *)
Definition status_send (statusCode message : value) : Eff (list Sent) unit :=
  modify (fun sent => (sent ++ [mkSent statusCode {[ "message" := message ]}])%list).

(** [errorHandler(error, res)]; the state is the calls made on [res]. *)
Definition errorHandler (err : value) : Eff (list Sent) unit :=
  code <- read_prop err "code" ;;
  let found :=
    if truthy code then
      match dictionaryError code with
      | Some entry =>
          Some (mkCustomErrorObject (VNum (entry_statusCode entry)) (VStr (entry_message entry)))
      | None => None
      end
    else None in
  let chosen := match found with Some e => e | None => defaultError err end in
  status_send (ceo_statusCode chosen) (ceo_message chosen).

End ErrorsHelper.

(** ** The error middleware: [errors.middleware.ts] *)

Module ErrorsMiddleware.

Import ErrorsHelper.

Local Open Scope eff_scope.

(** A computation on the world, and one on the response, within a state
    that holds both. *)
Definition on_world {A : Type} (c : Eff World A) : Eff (World * list Sent) A :=
  fun s => let '(r, w) := c (fst s) in (r, (w, snd s)).

Definition on_res {A : Type} (c : Eff (list Sent) A) : Eff (World * list Sent) A :=
  fun s => let '(r, sent) := c (snd s) in (r, (fst s, sent)).

Definition notFoundError : value :=
  VObj {[ "statusCode" := VNum StatusCodes.NOT_FOUND;
          "message" := VStr "Oops! Resource not found." ]}.

(** [handleErrors(error, _req, res, _next)] *)
Definition handleErrors (packageInfo : gmap string value) (err : value)
    : Eff (World * list Sent) unit :=
  _ <- on_world
         (Logger.logger_error packageInfo
            (VObj {[ "message" := VStr "The errors handler middleware was triggered.";
                     "error" := err ]}) VUndefined) ;;
  status <- read_prop err "status" ;;
  if truthy status && strict_eq_number status StatusCodes.NOT_FOUND
  then on_res (errorHandler notFoundError)
  else on_res (errorHandler err).

End ErrorsMiddleware.

(** ** The CORS middleware: [cors.middleware.ts] *)

Module Cors.

(** An entry of the whitelist: a [RegExp], kept as its source, or any other
    value. *)
Inductive OriginItem : Type :=
  | ItemRegExp (source : string)
  | ItemValue (v : value).

(** What [config.get('corsOrigin')] returns: a string, an array, or
    something else. *)
Inductive CorsOrigin : Type :=
  | CfgString (s : string)
  | CfgArray (items : list OriginItem)
  | CfgOther.

(** What the handler tells the [cors] library: [callback(null, true)] or
    [callback(new Error(message))]. *)
Inductive Decision : Type :=
  | Allow
  | Deny (message : string).

(** [s.startsWith('/')] and [s.endsWith('/')] *)
Definition startsWith_slash (s : string) : bool :=
  match s with
  | String c _ => String.eqb (String c EmptyString) "/"
  | EmptyString => false
  end.

Fixpoint endsWith_slash (s : string) : bool :=
  match s with
  | EmptyString => false
  | String c EmptyString => String.eqb (String c EmptyString) "/"
  | String _ rest => endsWith_slash rest
  end.

(** [s.slice(1, -1)] *)
Definition slice_1_m1 (s : string) : string :=
  String.substring 1 (String.length s - 2) s.

(** [s.split(',')]: the pieces between the commas, at least one. *)
Fixpoint split_comma (s : string) : list string :=
  match s with
  | EmptyString => [EmptyString]
  | String c rest =>
      if String.eqb (String c EmptyString) ","
      then EmptyString :: split_comma rest
      else match split_comma rest with
           | piece :: pieces => String c piece :: pieces
           | [] => [String c EmptyString]
           end
  end.

Section Handler.

(** [String.prototype.trim]. *)
Variable trim : string -> string.

(** Whether [new RegExp(source)] succeeds; it throws a SyntaxError
    otherwise. *)
Variable regexpCompiles : string -> bool.

(** [new RegExp(source).test(origin)]. *)
Variable regexpTest : string -> string -> bool.

(** [new RegExp(source)]: [None] stands for the SyntaxError. *)
Definition new_RegExp (source : string) : option OriginItem :=
  if regexpCompiles source then Some (ItemRegExp source) else None.

(** The callback of [corsOrigin.split(',').map(...)]. *)
Definition format_url (url : string) : option OriginItem :=
  let trimmed := trim url in
  if startsWith_slash trimmed && endsWith_slash trimmed
  then new_RegExp (slice_1_m1 trimmed)
  else Some (ItemValue (VStr trimmed)).

(** The callback of [corsOrigin.map(...)]. *)
Definition format_item (item : OriginItem) : option OriginItem :=
  match item with
  | ItemValue (VStr s) =>
      if startsWith_slash s && endsWith_slash s
      then new_RegExp (slice_1_m1 s)
      else Some item
  | _ => Some item
  end.

(** [formatAcceptedOrigins]: [None] when a pattern does not compile. *)
Definition formatAcceptedOrigins (corsOrigin : CorsOrigin) : option (list OriginItem) :=
  match corsOrigin with
  | CfgString s => mapM format_url (split_comma s)
  | CfgArray items => mapM format_item items
  | CfgOther => Some []
  end.

(** [item === origin] for an [origin] that is a string or [undefined]. *)
Definition strict_eq_origin (v : value) (origin : option string) : bool :=
  match v, origin with
  | VStr s, Some o => String.eqb s o
  | VUndefined, None => true
  | _, _ => false
  end.

(** [!origin] *)
Definition no_origin (origin : option string) : bool :=
  match origin with
  | Some o => String.eqb o ""
  | None => true
  end.

(** The callback of [whitelist.some(...)]. *)
Definition item_allows (origin : option string) (item : OriginItem) : bool :=
  match item with
  | ItemRegExp source =>
      match origin with
      | Some o => if String.eqb o "" then false else regexpTest source o
      | None => false
      end
  | ItemValue v => strict_eq_origin v origin
  end.

(** [`Origin '${origin}' not allowed by CORS.`] *)
Definition not_allowed (origin : option string) : string :=
  "Origin '" ++ match origin with Some o => o | None => "undefined" end
    ++ "' not allowed by CORS.".

(** [originHandler(origin, callback)], for a value of
    [process.env.NODE_ENV === 'development'] and of the configuration:
    the decision it calls back with, [None] when [formatAcceptedOrigins]
    throws. *)
Definition originHandler (isDevelopment : bool) (corsOrigin : CorsOrigin)
    (origin : option string) : option Decision :=
  whitelist ← formatAcceptedOrigins corsOrigin;
  if isDevelopment && no_origin origin then Some Allow
  else
    let isAllowed := existsb (item_allows origin) whitelist in
    if isAllowed then Some Allow else Some (Deny (not_allowed origin)).

End Handler.

End Cors.

(** ** The body sanitizer: [sanitizeBody.middleware.ts] *)

Module SanitizeBody.

Local Open Scope eff_scope.

Section Sanitize.

(** [sanitize]: the [xss] library with the options of the source. *)
Variable sanitize : string -> string.

(** [isPlainObject] *)
Definition isPlainObject (v : value) : bool :=
  String.eqb (typeof v) "object" && negb (is_null v) && negb (Array_isArray v).

(** [sanitizeString] *)
Definition sanitizeString (v : value) : value :=
  if negb (String.eqb (typeof v) "string") then v
  else match v with
       | VStr s => VStr (sanitize s)
       | _ => v
       end.

(** [stripTags(payload)]: a copy of the own enumerable properties of
    [payload], each replaced as the loop body replaces it.  Every call is
    guarded by [isPlainObject] or is given a fresh object, so [payload] is
    an object or an [Error], which has no own enumerable property. *)
Fixpoint stripTags (payload : value) {struct payload} : value :=
  match payload with
  | VObj attributes =>
      VObj ((fun v =>
               match v with
               | VArr elems =>
                   VArr (map (fun elem =>
                                if isPlainObject elem then stripTags elem
                                else sanitizeString elem) elems)
               | _ => if isPlainObject v then stripTags v else sanitizeString v
               end) <$> attributes)
  | _ => VObj ∅
  end.

(** What the middleware reads and writes: [req.body] and the calls of
    [next]. *)
Record BodyState : Type := mkBodyState {
  req_body : value;
  next_calls : nat
}.

(** [sanitizeBody(req, _res, next)] *)
Definition sanitizeBody : Eff BodyState unit :=
  body <- gets req_body ;;
  _ <- (if truthy body
        then
          let attributes := delete "_id" (own_props body) in
          modify (fun st => mkBodyState (stripTags (VObj attributes)) (next_calls st))
        else ret tt) ;;
  modify (fun st => mkBodyState (req_body st) (S (next_calls st))).

End Sanitize.

End SanitizeBody.

(** ** Vocabulary of the statements *)

Import Logger ExpressLogger.

(** The value a computation returns from a state ([d] if it throws). *)
Definition value_of {S A : Type} (c : Eff S A) (s : S) (d : A) : A :=
  match fst (c s) with
  | Returns a => a
  | Throws _ => d
  end.

(** From the world [w], [c] returns normally, writes exactly the line [r]
    and changes nothing else. *)
Definition writes_line (c : Eff World unit) (w : World) (r : LogRecord) : Prop :=
  c w = (Returns tt, with_written (fun l => (l ++ [r])%list) w).

(** From the world [w], [c] throws and leaves the world as it was. *)
Definition throws_TypeError (c : Eff World unit) (w : World) : Prop :=
  c w = (Throws TypeError, w).

(** The world a computation leaves behind. *)
Definition world_after {A : Type} (c : Eff World A) (w : World) : World :=
  snd (c w).

(** The remaining keys of an object input: all but [message] and [data]. *)
Definition remainingKeys (o : gmap string value) : gmap string value :=
  filter (fun kv => kv.1 <> "message" /\ kv.1 <> "data") o.

(** The [data] of an object input is omitted, [undefined], [null] or an
    array. *)
Definition data_absent (o : gmap string value) : Prop :=
  o !! "data" = None \/ o !! "data" = Some VUndefined \/ o !! "data" = Some VNull
  \/ exists l, o !! "data" = Some (VArr l).

(** The caller supplied a message: the string form, or an input that is not
    a string and whose [message] is a non-empty string. *)
Definition supplied_message (arg1 : value) : option value :=
  match arg1 with
  | VStr _ => Some arg1
  | _ =>
      match get_prop arg1 "message" with
      | VStr m => if String.eqb m "" then None else Some (VStr m)
      | _ => None
      end
  end.

(** A world before anything happened. *)
Definition world0 : World := mkWorld ∅ "2023-01-01 12:00:00.000" [] [] 0.

(** The request context entries the middleware writes: a request name
    [METHOD - baseUrl routePath]. *)
Definition request_name_entry (v : value) : Prop :=
  exists (req : Request) (r : Route), v = VStr (requestName req r).

(** The context of a world holds no [requestName], or one the middleware
    wrote. *)
Definition context_wf (w : World) : Prop :=
  forall v, context w !! "requestName" = Some v -> request_name_entry v.

(** The nesting depth of a value, on which the recursion of [stripTags] is
    followed. *)
Fixpoint depth (v : value) {struct v} : nat :=
  match v with
  | VArr elems => S (foldr (fun elem acc => Nat.max (depth elem) acc) 0%nat elems)
  | VObj o => S (map_fold (fun _ x acc => Nat.max (depth x) acc) 0%nat o)
  | _ => 0%nat
  end.

(** What the loop of [stripTags] puts in place of an array element, and in
    place of the value of a key. *)
Definition replaced_elem (sanitize : string -> string) (elem : value) : value :=
  if SanitizeBody.isPlainObject elem then SanitizeBody.stripTags sanitize elem
  else SanitizeBody.sanitizeString sanitize elem.

Definition replaced_value (sanitize : string -> string) (v : value) : value :=
  match v with
  | VArr elems => VArr (map (replaced_elem sanitize) elems)
  | _ => replaced_elem sanitize v
  end.

(** * Properties *)

(** ** Values *)

Section ValueFacts.

(** Every object, array and [Error] is truthy. *)
Lemma truthy_object (v : value) :
  typeof v = "object" -> v <> VNull -> truthy v = true.
Proof. destruct v; simpl; intros Ht Hn; try discriminate; congruence. Qed.

(** A truthy string is a non-empty one. *)
Lemma truthy_string (v : value) :
  truthy v && String.eqb (typeof v) "string" = true <->
  exists s, v = VStr s /\ s <> "".
Proof.
  split.
  - destruct v as [ | |b|z| |s|l|n m st|o]; simpl;
      rewrite ?andb_false_r, ?andb_true_r; try discriminate.
    intros H. exists s. split; [reflexivity|].
    intros ->. discriminate.
  - intros (s & -> & Hs). simpl. rewrite andb_true_r.
    destruct (String.eqb_spec s ""); [contradiction | reflexivity].
Qed.

Lemma nullish_or_not (v : value) :
  (v = VNull \/ v = VUndefined) \/ (v <> VNull /\ v <> VUndefined).
Proof. destruct v; (left; tauto) || (right; split; discriminate). Qed.

Lemma typeof_string (v : value) :
  String.eqb (typeof v) "string" = true <-> exists s, v = VStr s.
Proof.
  split.
  - destruct v; simpl; try discriminate. eauto.
  - intros [s ->]. reflexivity.
Qed.

End ValueFacts.

(** ** The structured logger *)

Section StructuredLoggerFacts.

Variable packageInfo : gmap string value.

(** [mixin] reads the context and never throws. *)
Lemma mixin_run (w : World) :
  mixin w =
  (Returns (let requestName := default VUndefined (context w !! "requestName") in
            if truthy requestName then {[ "requestName" := requestName ]} else ∅), w).
Proof. reflexivity. Qed.

(** A level method never throws and appends exactly one line, whose
    dynamic fields are what [mixin] returns at that moment. *)
Lemma pinoLogger_run (lvl : Level) (args : list value) (w : World) :
  writes_line (pinoLogger packageInfo lvl args) w
    (mkLogRecord lvl (now w) (base packageInfo) (value_of mixin w ∅)
                 (call_merging args) (call_message args)).
Proof. reflexivity. Qed.

Lemma logger_at_eq (lvl : Level) :
  logger_at packageInfo lvl = createLogHandler (pinoLogger packageInfo lvl).
Proof. destruct lvl; reflexivity. Qed.

End StructuredLoggerFacts.

(** ** The facade *)

Section FacadeFacts.

Context {S : Type} (logMethod : list value -> Eff S unit).

Lemma createLogHandler_string (s : string) (arg2 : value) :
  createLogHandler logMethod (VStr s) arg2
  = if truthy arg2 then logMethod [arg2; VStr s] else logMethod [VStr s].
Proof. reflexivity. Qed.

Lemma createLogHandler_nullish (arg1 arg2 : value) :
  arg1 = VNull \/ arg1 = VUndefined ->
  createLogHandler logMethod arg1 arg2 = throw TypeError.
Proof. intros [-> | ->]; reflexivity. Qed.

(** On anything but a string, [null] and [undefined] the handler takes
    the object branch, and the destructuring succeeds. *)
Lemma createLogHandler_object (arg1 arg2 : value) :
  String.eqb (typeof arg1) "string" = false -> arg1 <> VNull -> arg1 <> VUndefined ->
  createLogHandler logMethod arg1 arg2
  = let message := get_prop arg1 "message" in
    let data := get_prop arg1 "data" in
    let rest := delete "data" (delete "message" (own_props arg1)) in
    let logObj :=
      if negb (is_null data) && String.eqb (typeof data) "object" && negb (Array_isArray data)
      then spread2 (own_props data) rest else rest in
    if truthy message && String.eqb (typeof message) "string"
    then logMethod [VObj logObj; message] else logMethod [VObj logObj].
Proof.
  intros Hs Hn Hu.
  destruct arg1; try reflexivity; try contradiction; discriminate.
Qed.

(** The handler calls the level method exactly once, or throws before
    calling it. *)
Lemma createLogHandler_calls_once (arg1 arg2 : value) :
  arg1 <> VNull -> arg1 <> VUndefined ->
  exists args, createLogHandler logMethod arg1 arg2 = logMethod args.
Proof.
  intros Hn Hu.
  destruct (String.eqb (typeof arg1) "string") eqn:Hs.
  - apply typeof_string in Hs as [s ->]. rewrite createLogHandler_string.
    destruct (truthy arg2); eauto.
  - rewrite createLogHandler_object by assumption. cbv zeta.
    match goal with |- context [if ?c then logMethod _ else _] => destruct c end; eauto.
Qed.

End FacadeFacts.

(** The rest pattern leaves exactly the remaining keys. *)
Lemma rest_remainingKeys (o : gmap string value) :
  delete "data" (delete "message" o) = remainingKeys o.
Proof.
  apply map_eq. intros k. unfold remainingKeys.
  rewrite !lookup_delete.
  destruct (o !! k) as [v|] eqn:Hk.
  - repeat case_decide; subst; symmetry.
    + apply map_lookup_filter_None. right. intros v' _ [_ Hd]. apply Hd. reflexivity.
    + apply map_lookup_filter_None. right. intros v' _ [Hm _]. apply Hm. reflexivity.
    + apply map_lookup_filter_Some. split; [assumption|]. simpl. split; congruence.
  - repeat case_decide; subst; symmetry;
      apply map_lookup_filter_None; left; assumption.
Qed.

Lemma lookup_remainingKeys (o : gmap string value) (k : string) :
  remainingKeys o !! k = if decide (k = "message" \/ k = "data") then None else o !! k.
Proof.
  rewrite <- rest_remainingKeys, !lookup_delete.
  repeat case_decide; subst; try reflexivity; intuition congruence.
Qed.

Section FacadeClaims.

Variable packageInfo : gmap string value.

(** C2, as the code has it.  A facade call whose primary argument is
    neither [null] nor [undefined] (a string, an object, an array, an
    [Error], a number, a boolean) never throws: it returns normally after
    writing exactly one line.  On [null] and [undefined] the object
    destructuring throws a TypeError before the logger is called, and
    nothing is written. *)
Theorem facade_returns_unless_nullish (lvl : Level) (arg1 arg2 : value) (w : World) :
  (arg1 <> VNull /\ arg1 <> VUndefined /\
   exists r, writes_line (logger_at packageInfo lvl arg1 arg2) w r)
  \/ ((arg1 = VNull \/ arg1 = VUndefined) /\
      throws_TypeError (logger_at packageInfo lvl arg1 arg2) w).
Proof.
  rewrite logger_at_eq.
  destruct (nullish_or_not arg1) as [Hnull | [Hn Hu]].
  - right. split; [assumption|].
    unfold throws_TypeError. rewrite createLogHandler_nullish by assumption.
    reflexivity.
  - left.
    repeat split; try assumption.
    destruct (createLogHandler_calls_once (pinoLogger packageInfo lvl) arg1 arg2 Hn Hu)
      as [args ->].
    eexists. apply pinoLogger_run.
Qed.

(** C4, as the code has it.  For a string primary argument: when no
    second argument is given, or the one given is falsy, the logger is
    called with the message alone, and the line has no merging object and
    the input as its message; when the second argument is truthy, as every
    metadata object and every [Error] is, the logger is called as
    [(secondArg, message)]. *)
Theorem facade_string_form (lvl : Level) (s : string) (arg2 : value) (w : World) :
  (truthy arg2 = false ->
     logger_at packageInfo lvl (VStr s) arg2 = pinoLogger packageInfo lvl [VStr s] /\
     exists r, writes_line (logger_at packageInfo lvl (VStr s) arg2) w r /\
               merging r = None /\ message r = Some (VStr s))
  /\ (truthy arg2 = true ->
     logger_at packageInfo lvl (VStr s) arg2 = pinoLogger packageInfo lvl [arg2; VStr s] /\
     exists r, writes_line (logger_at packageInfo lvl (VStr s) arg2) w r /\
               merging r = Some arg2 /\ message r = Some (VStr s))
  /\ (typeof arg2 = "object" -> arg2 <> VNull -> truthy arg2 = true)
  /\ truthy VUndefined = false.
Proof.
  rewrite logger_at_eq, createLogHandler_string.
  split; [|split; [|split]].
  - intros ->. split; [reflexivity|].
    eexists. split; [apply pinoLogger_run|]. split; reflexivity.
  - intros ->. split; [reflexivity|].
    eexists. split; [apply pinoLogger_run|]. split; reflexivity.
  - apply truthy_object.
  - reflexivity.
Qed.

(** The line an object-branch call writes: its merging object is
    [logObj], its message the non-empty string [message], if any. *)
Lemma facade_object_line (lvl : Level) (arg1 arg2 : value) (w : World) :
  String.eqb (typeof arg1) "string" = false -> arg1 <> VNull -> arg1 <> VUndefined ->
  let data := get_prop arg1 "data" in
  let rest := delete "data" (delete "message" (own_props arg1)) in
  let logObj :=
    if negb (is_null data) && String.eqb (typeof data) "object" && negb (Array_isArray data)
    then spread2 (own_props data) rest else rest in
  exists r,
    writes_line (logger_at packageInfo lvl arg1 arg2) w r /\
    merging r = Some (VObj logObj) /\
    message r =
      (if truthy (get_prop arg1 "message") && String.eqb (typeof (get_prop arg1 "message")) "string"
       then Some (get_prop arg1 "message") else None).
Proof.
  intros Hs Hn Hu. cbv zeta.
  rewrite logger_at_eq, createLogHandler_object by assumption. cbv zeta.
  destruct (truthy (get_prop arg1 "message")
            && String.eqb (typeof (get_prop arg1 "message")) "string");
    (eexists; split; [apply pinoLogger_run | split; reflexivity]).
Qed.

(** C3.  For every object input: the line's extra fields are
    [{...data, ...remainingKeys}] when [data] is a plain object, each key
    reading its value from the remaining keys (all keys but [message] and
    [data]) and, failing that, from [data]; they are the remaining keys
    alone when [data] is omitted, [undefined], [null] or an array. *)
Theorem facade_extra_fields (lvl : Level) (o : gmap string value) (arg2 : value) (w : World) :
  exists (fields : gmap string value) (r : LogRecord),
    writes_line (logger_at packageInfo lvl (VObj o) arg2) w r /\
    merging r = Some (VObj fields) /\
    (forall d, o !! "data" = Some (VObj d) ->
       fields = spread2 d (remainingKeys o) /\
       forall k, fields !! k =
                 match remainingKeys o !! k with Some v => Some v | None => d !! k end) /\
    (data_absent o -> fields = remainingKeys o).
Proof.
  destruct (facade_object_line lvl (VObj o) arg2 w) as (r & Hr & Hm & _);
    [reflexivity | discriminate | discriminate |].
  change (own_props (VObj o)) with o in Hm.
  change (get_prop (VObj o) "data") with (default VUndefined (o !! "data")) in Hm.
  rewrite rest_remainingKeys in Hm.
  eexists. exists r. split; [exact Hr|]. split; [exact Hm|]. split.
  - intros d Hd. rewrite Hd. simpl. split; [reflexivity|].
    intros k. unfold spread2. rewrite lookup_union.
    destruct (remainingKeys o !! k), (d !! k); reflexivity.
  - intros [Hd | [Hd | [Hd | [l Hd]]]]; rewrite Hd; reflexivity.
Qed.

Lemma supplied_message_object (arg1 : value) :
  String.eqb (typeof arg1) "string" = false ->
  supplied_message arg1
  = (if truthy (get_prop arg1 "message") && String.eqb (typeof (get_prop arg1 "message")) "string"
     then Some (get_prop arg1 "message") else None).
Proof.
  intros Hs.
  assert (supplied_message arg1
          = match get_prop arg1 "message" with
            | VStr m => if String.eqb m "" then None else Some (VStr m)
            | _ => None
            end) as ->.
  { destruct arg1; try reflexivity. discriminate Hs. }
  destruct (get_prop arg1 "message") as [ | |b|z| |m|l|n m st|o']; simpl;
    rewrite ?andb_false_r, ?andb_true_r; try reflexivity.
  destruct (String.eqb m ""); reflexivity.
Qed.

(** C5, as the code has it.  The line of a facade call has a message if
    and only if the caller supplied one: the string-form primary argument,
    or an input of the object form whose [message] is a non-empty string.
    In the object form the message goes along with the merged fields, and
    without a usable message the merged fields are written alone. *)
Theorem facade_message_iff_supplied (lvl : Level) (arg1 arg2 : value) (w : World) :
  arg1 <> VNull -> arg1 <> VUndefined ->
  exists r,
    writes_line (logger_at packageInfo lvl arg1 arg2) w r /\
    message r = supplied_message arg1 /\
    (is_Some (message r) <->
       (exists s, arg1 = VStr s) \/
       (String.eqb (typeof arg1) "string" = false /\
        exists m, m <> "" /\ get_prop arg1 "message" = VStr m)) /\
    (String.eqb (typeof arg1) "string" = false ->
       exists fields, merging r = Some (VObj fields)).
Proof.
  intros Hn Hu.
  destruct (String.eqb (typeof arg1) "string") eqn:Hs.
  - apply typeof_string in Hs as [s ->].
    assert (exists r, writes_line (logger_at packageInfo lvl (VStr s) arg2) w r /\
                      message r = Some (VStr s)) as (r & Hr & Hm).
    { rewrite logger_at_eq, createLogHandler_string.
      destruct (truthy arg2);
        (eexists; split; [apply pinoLogger_run | reflexivity]). }
    exists r. split; [exact Hr|]. split; [exact Hm|]. split; [|discriminate].
    rewrite Hm. split; [eauto | intros _; eexists; reflexivity].
  - destruct (facade_object_line lvl arg1 arg2 w Hs Hn Hu) as (r & Hr & Hf & Hm).
    exists r. split; [exact Hr|].
    split; [rewrite Hm; symmetry; apply supplied_message_object; exact Hs|].
    split; [|intros _; eexists; exact Hf].
    rewrite Hm.
    destruct (truthy (get_prop arg1 "message")
              && String.eqb (typeof (get_prop arg1 "message")) "string") eqn:Hc.
    + apply truthy_string in Hc as (m & Hg & Hne).
      split; [intros _; right; split; [reflexivity|]; eauto | intros _; eexists; reflexivity].
    + split; [intros [x Hx]; discriminate Hx|].
      intros [[s Hstr] | (_ & m & Hne & Hg)].
      * subst arg1. discriminate Hs.
      * assert (truthy (get_prop arg1 "message")
                && String.eqb (typeof (get_prop arg1 "message")) "string" = true) as Ht
          by (apply truthy_string; eauto).
        congruence.
Qed.

End FacadeClaims.

(** The claim of C2 fails at [null]: [logger.info(null)] throws. *)
Lemma facade_throws_on_null :
  throws_TypeError (logger_info ∅ VNull VUndefined) world0 /\
  ~ (forall lvl arg1 arg2 w, returns_normally (logger_at ∅ lvl arg1 arg2) w).
Proof.
  split; [reflexivity|].
  intros H. destruct (H info VNull VUndefined world0) as [a Ha].
  discriminate Ha.
Qed.

Lemma facade_returns_unless_nullish_witness :
  (exists r, writes_line (logger_warn ∅ (VNum 5) VUndefined) world0 r) /\
  throws_TypeError (logger_warn ∅ VUndefined VUndefined) world0.
Proof.
  split.
  - destruct (facade_returns_unless_nullish ∅ warn (VNum 5) VUndefined world0)
      as [(_ & _ & H) | ([H | H] & _)]; [exact H | discriminate H | discriminate H].
  - destruct (facade_returns_unless_nullish ∅ warn VUndefined VUndefined world0)
      as [(_ & H & _) | (_ & H)]; [contradiction H; reflexivity | exact H].
Defined.

(** The claim of C4 fails at a falsy second argument:
    [logger.error('failed', 0)] and [logger.error('failed', null)] call the
    logger with the message alone, not as [(secondArg, message)]. *)
Lemma facade_drops_falsy_second_argument :
  (logger_error ∅ (VStr "failed") (VNum 0) world0
     = pinoLogger ∅ error [VStr "failed"] world0 /\
   logger_error ∅ (VStr "failed") (VNum 0) world0
     <> pinoLogger ∅ error [VNum 0; VStr "failed"] world0)
  /\ (logger_error ∅ (VStr "failed") VNull world0
        = pinoLogger ∅ error [VStr "failed"] world0 /\
      logger_error ∅ (VStr "failed") VNull world0
        <> pinoLogger ∅ error [VNull; VStr "failed"] world0).
Proof.
  repeat split; try reflexivity;
    intros H; apply (f_equal (fun p => map merging (written (snd p)))) in H;
    discriminate H.
Qed.

Lemma facade_string_form_witness :
  logger_info ∅ (VStr "Operation started") VUndefined
    = pinoLogger ∅ info [VStr "Operation started"]
  /\ logger_info ∅ (VStr "Operation started") (VObj {[ "userId" := VNum 123 ]})
     = pinoLogger ∅ info [VObj {[ "userId" := VNum 123 ]}; VStr "Operation started"].
Proof.
  split.
  - apply (proj1 (facade_string_form ∅ info "Operation started" VUndefined world0)).
    reflexivity.
  - apply (proj1 (proj2 (facade_string_form ∅ info "Operation started"
                           (VObj {[ "userId" := VNum 123 ]}) world0))).
    reflexivity.
Defined.

Lemma facade_extra_fields_witness :
  exists (fields : gmap string value) (r : LogRecord),
    writes_line
      (logger_info ∅
         (VObj {[ "message" := VStr "Order created";
                  "data" := VObj {[ "orderId" := VStr "ORD-123"; "total" := VNum 150 ]};
                  "userId" := VNum 456 ]}) VUndefined) world0 r /\
    merging r = Some (VObj fields) /\
    fields = {[ "orderId" := VStr "ORD-123"; "total" := VNum 150; "userId" := VNum 456 ]}.
Proof.
  destruct (facade_extra_fields ∅ info
              {[ "message" := VStr "Order created";
                 "data" := VObj {[ "orderId" := VStr "ORD-123"; "total" := VNum 150 ]};
                 "userId" := VNum 456 ]} VUndefined world0)
    as (fields & r & Hr & Hm & Hdata & _).
  exists fields, r. split; [exact Hr|]. split; [exact Hm|].
  destruct (Hdata {[ "orderId" := VStr "ORD-123"; "total" := VNum 150 ]}) as [-> _].
  - reflexivity.
  - vm_compute. reflexivity.
Defined.

(** The claim of C5 fails at an empty [message]:
    [logger.info({ message: '' })] has a string [message] field and writes a
    line without message. *)
Lemma facade_drops_empty_message :
  get_prop (VObj {[ "message" := VStr "" ]}) "message" = VStr "" /\
  exists r, writes_line (logger_info ∅ (VObj {[ "message" := VStr "" ]}) VUndefined) world0 r /\
            message r = None.
Proof.
  split; [reflexivity|].
  exists (mkLogRecord info (now world0) (base ∅) ∅ (Some (VObj ∅)) None).
  split; [vm_compute; reflexivity | reflexivity].
Qed.

Lemma facade_message_iff_supplied_witness :
  exists r,
    writes_line (logger_info ∅ (VObj {[ "message" := VStr "Simple" ]}) VUndefined) world0 r /\
    message r = Some (VStr "Simple").
Proof.
  destruct (facade_message_iff_supplied ∅ info (VObj {[ "message" := VStr "Simple" ]})
              VUndefined world0) as (r & Hr & Hm & _); [discriminate | discriminate |].
  exists r. split; [exact Hr | exact Hm].
Defined.

(** ** The request context and the dynamic fields *)

Section ContextFacts.

Variable packageInfo : gmap string value.

(** A request name is never the empty string. *)
Lemma requestName_nonempty (req : Request) (r : Route) :
  String.eqb (requestName req r) "" = false.
Proof. unfold requestName. destruct (method req); reflexivity. Qed.

Lemma request_name_entry_truthy (v : value) :
  request_name_entry v -> truthy v = true.
Proof.
  intros (req & r & ->). simpl. rewrite requestName_nonempty. reflexivity.
Qed.

Lemma context_wf_world0 : context_wf world0.
Proof. intros v Hv. discriminate Hv. Qed.

(** Writing a line leaves the context as it is. *)
Lemma context_wf_writes_line (c : Eff World unit) (w : World) (r : LogRecord) :
  writes_line c w r -> context_wf w -> context_wf (world_after c w).
Proof. unfold writes_line, world_after. intros ->. exact id. Qed.

(** No facade call touches the context, whether it returns or throws. *)
Lemma context_wf_logger_at (lvl : Level) (arg1 arg2 : value) (w : World) :
  context_wf w -> context_wf (world_after (logger_at packageInfo lvl arg1 arg2) w).
Proof.
  intros Hwf. unfold world_after. rewrite logger_at_eq.
  destruct (nullish_or_not arg1) as [Hnull | [Hn Hu]].
  - rewrite createLogHandler_nullish by assumption. exact Hwf.
  - destruct (createLogHandler_calls_once (pinoLogger packageInfo lvl) arg1 arg2 Hn Hu)
      as [args ->].
    rewrite pinoLogger_run. exact Hwf.
Qed.

(** C6.  The dynamic fields of every line are [{requestName}] when the
    request context holds a request name at the moment the line is
    written, and [{}] when it holds none: [requestName] is in a line if
    and only if the context holds one.  This is so for the lines of the
    structured logger and so for those of the facade. *)
Theorem line_requestName_iff_stored (lvl : Level) (args : list value) (w : World) :
  context_wf w ->
  (exists r, writes_line (pinoLogger packageInfo lvl args) w r) /\
  forall c r,
    (c = pinoLogger packageInfo lvl args \/
     exists arg1 arg2, c = logger_at packageInfo lvl arg1 arg2) ->
    writes_line c w r ->
    dynamicFields r =
      match context w !! "requestName" with
      | Some v => {[ "requestName" := v ]}
      | None => ∅
      end /\
    (is_Some (dynamicFields r !! "requestName") <-> is_Some (context w !! "requestName")).
Proof.
  intros Hwf. split; [eexists; apply pinoLogger_run|].
  intros c r Hc Hr.
  assert (dynamicFields r = value_of mixin w ∅) as Hdyn.
  { assert (exists args', c w = pinoLogger packageInfo lvl args' w) as [args' Hc'].
    { destruct Hc as [-> | (arg1 & arg2 & ->)]; [eauto|].
      rewrite logger_at_eq.
      destruct (nullish_or_not arg1) as [Hnull | [Hn Hu]].
      - rewrite logger_at_eq in Hr. unfold writes_line in Hr.
        rewrite createLogHandler_nullish in Hr by assumption. discriminate Hr.
      - destruct (createLogHandler_calls_once (pinoLogger packageInfo lvl) arg1 arg2 Hn Hu)
          as [args' ->]. eauto. }
    unfold writes_line in Hr. rewrite Hc', pinoLogger_run in Hr.
    apply (f_equal (fun p => written (snd p))) in Hr. simpl in Hr.
    apply app_inv_head in Hr. injection Hr as <-. reflexivity. }
  rewrite Hdyn. unfold value_of. rewrite mixin_run. simpl.
  destruct (context w !! "requestName") as [v|] eqn:Hctx; simpl.
  - rewrite (request_name_entry_truthy v (Hwf v Hctx)).
    split; [reflexivity|]. rewrite lookup_singleton_eq. split; eauto.
  - split; [reflexivity|]. rewrite lookup_empty. split; intros [x Hx]; discriminate Hx.
Qed.

End ContextFacts.

Lemma line_requestName_iff_stored_witness :
  exists r,
    writes_line (logger_info ∅ (VStr "Processing payment") VUndefined)
      (with_context (fun c => <[ "requestName" := VStr "GET - /api/v1/test" ]> c) world0) r /\
    dynamicFields r = {[ "requestName" := VStr "GET - /api/v1/test" ]}.
Proof.
  pose (w := with_context (fun c => <[ "requestName" := VStr "GET - /api/v1/test" ]> c) world0).
  assert (context_wf w) as Hwf.
  { intros v Hv. vm_compute in Hv. injection Hv as <-.
    exists (mkRequest "GET" "/api/v1/test" "/api/v1" (Some (mkRoute "/test"))
                      VUndefined VUndefined VUndefined), (mkRoute "/test").
    reflexivity. }
  destruct (line_requestName_iff_stored ∅ info [VStr "Processing payment"] w Hwf)
    as [[r Hr] Hall].
  exists r. split; [exact Hr|].
  destruct (Hall (logger_info ∅ (VStr "Processing payment") VUndefined) r) as [Hdyn _].
  - right. exists (VStr "Processing payment"), VUndefined. reflexivity.
  - exact Hr.
  - rewrite Hdyn. reflexivity.
Defined.

(** ** The request logging middleware *)

Section MiddlewareFacts.

Variable captureStack : string -> string.


(** [customProps] never throws; it writes the request name when the route
    is resolved and leaves the world alone otherwise. *)
Lemma customProps_world (req : Request) (res : Response) (w : World) :
  world_after (customProps captureStack req res) w
  = match route req with
    | Some r => with_context (fun c => <[ "requestName" := VStr (requestName req r) ]> c) w
    | None => w
    end.
Proof. unfold world_after, customProps. destruct (route req); reflexivity. Qed.

Lemma customProps_returns (req : Request) (res : Response) (w : World) :
  customProps captureStack req res w
  = (Returns (value_of (customProps captureStack req res) w ∅),
     world_after (customProps captureStack req res) w).
Proof. unfold value_of, world_after, customProps. destruct (route req); reflexivity. Qed.

(** The [error] property of what [customProps] returns. *)
Lemma customProps_error (req : Request) (res : Response) (w : World) :
  value_of (customProps captureStack req res) w ∅ !! "error"
  = if (400 <=? statusCode res)%Z
    then Some (if truthy (locals_error res) then locals_error res
               else new_Error captureStack
                      (if String.eqb (statusMessage res) "" then "Request failed"
                       else statusMessage res))
    else None.
Proof.
  unfold value_of, customProps.
  destruct (route req); simpl; destruct (400 <=? statusCode res)%Z;
    rewrite ?lookup_insert_eq; try reflexivity;
    rewrite lookup_insert_ne by discriminate;
    apply lookup_singleton_ne; discriminate.
Qed.

(** What [customProps] returns does not depend on the world, and a second
    evaluation stores the same request name again. *)
Lemma customProps_value (req : Request) (res : Response) (w w' : World) :
  value_of (customProps captureStack req res) w ∅
  = value_of (customProps captureStack req res) w' ∅.
Proof. unfold value_of, customProps. destruct (route req); reflexivity. Qed.

Lemma customProps_again (req : Request) (res : Response) (w : World) :
  world_after (customProps captureStack req res)
    (with_nextCalls S (world_after (customProps captureStack req res) w))
  = with_nextCalls S (world_after (customProps captureStack req res) w).
Proof.
  rewrite !customProps_world. destruct (route req) as [r|]; [|reflexivity].
  unfold with_nextCalls, with_context. cbn [context now written summaries nextCalls].
  rewrite insert_insert_eq. reflexivity.
Qed.

(** On entry the custom properties are evaluated, whatever [ignore]
    answers, and control passes on. *)
Lemma loggingMiddleware_run (req : Request) (res : Response) (w : World) :
  loggingMiddleware captureStack req res w
  = (Returns (negb (autoLogging_ignore req)),
     with_nextCalls S (world_after (customProps captureStack req res) w)).
Proof.
  unfold loggingMiddleware, world_after, customProps.
  destruct (route req); reflexivity.
Qed.

(** An ignored request is not logged when its response finishes. *)
Lemma expressLogger_ignored (req : Request) (res : Response) (w : World) :
  autoLogging_ignore req = true ->
  expressLogger captureStack req res w
  = (Returns tt, with_nextCalls S (world_after (customProps captureStack req res) w)).
Proof.
  intros Hi. unfold expressLogger, bind. rewrite loggingMiddleware_run, Hi. reflexivity.
Qed.

(** A request that is not ignored gets one summary when its response
    finishes. *)
Lemma expressLogger_logged (req : Request) (res : Response) (w : World) :
  autoLogging_ignore req = false ->
  expressLogger captureStack req res w
  = (Returns tt,
     with_nextCalls S
       (with_summaries
          (fun l => (l ++ [mkSummary (customLogLevel req res)
                             (value_of (customProps captureStack req res) w ∅)
                             (serializers_req req) (serializers_res res)
                             (customSuccessMessage req res)])%list)
          (world_after (customProps captureStack req res) w))).
Proof.
  intros Hi. unfold expressLogger, bind at 1. rewrite loggingMiddleware_run, Hi.
  cbn [negb]. unfold onResFinished, bind. rewrite customProps_returns.
  rewrite (customProps_value req res _ w), customProps_again.
  destruct (500 <=? statusCode res)%Z; reflexivity.
Qed.

Lemma expressLogger_summaries (req : Request) (res : Response) (w : World) :
  autoLogging_ignore req = false ->
  summaries (world_after (expressLogger captureStack req res) w)
  = (summaries w ++ [mkSummary (customLogLevel req res)
                       (value_of (customProps captureStack req res) w ∅)
                       (serializers_req req) (serializers_res res)
                       (customSuccessMessage req res)])%list.
Proof.
  intros Hi. unfold world_after. rewrite expressLogger_logged by assumption.
  simpl. rewrite customProps_world. destruct (route req); reflexivity.
Qed.

Lemma context_wf_customProps (req : Request) (res : Response) (w : World) :
  context_wf w -> context_wf (world_after (customProps captureStack req res) w).
Proof.
  intros Hwf. rewrite customProps_world. destruct (route req) as [r|]; [|exact Hwf].
  intros v. simpl. rewrite lookup_insert. case_decide.
  - intros [= <-]. exists req, r. reflexivity.
  - apply Hwf.
Qed.

(** The middleware keeps the context within the request names. *)
Lemma context_wf_expressLogger (req : Request) (res : Response) (w : World) :
  context_wf w -> context_wf (world_after (expressLogger captureStack req res) w).
Proof.
  intros Hwf. unfold world_after.
  destruct (autoLogging_ignore req) eqn:Hi.
  - rewrite expressLogger_ignored by assumption.
    exact (context_wf_customProps req res w Hwf).
  - rewrite expressLogger_logged by assumption.
    exact (context_wf_customProps req res w Hwf).
Qed.

(** C7.  The summary of a request that ended with a status of 400 or more
    is at level [error] and carries an [error]: the one on
    [res.locals.error] when one is set, otherwise a fresh [Error] whose
    message is the status text, or ["Request failed"] when the status text
    is empty.  Below 400 the level is [info] and there is no [error]. *)
Theorem summary_level_and_error (req : Request) (res : Response) (w : World) :
  autoLogging_ignore req = false ->
  exists s,
    summaries (world_after (expressLogger captureStack req res) w)
      = (summaries w ++ [s])%list /\
    ((400 <= statusCode res)%Z ->
       s_level s = error /\
       (typeof (locals_error res) = "object" -> locals_error res <> VNull ->
          s_props s !! "error" = Some (locals_error res)) /\
       (locals_error res = VUndefined -> statusMessage res <> "" ->
          s_props s !! "error" = Some (new_Error captureStack (statusMessage res)) /\
          get_prop (new_Error captureStack (statusMessage res)) "message"
            = VStr (statusMessage res)) /\
       (locals_error res = VUndefined -> statusMessage res = "" ->
          s_props s !! "error" = Some (new_Error captureStack "Request failed") /\
          get_prop (new_Error captureStack "Request failed") "message"
            = VStr "Request failed")) /\
    ((statusCode res < 400)%Z ->
       s_level s = info /\ s_props s !! "error" = None).
Proof.
  intros Hi. eexists. split; [apply expressLogger_summaries; exact Hi|].
  cbn [s_level s_props]. rewrite customProps_error. unfold customLogLevel.
  split.
  - intros Hge. apply Z.leb_le in Hge. rewrite Hge.
    split; [reflexivity|]. split; [|split].
    + intros Ht Hn. rewrite (truthy_object _ Ht Hn). reflexivity.
    + intros -> Hm. simpl.
      destruct (String.eqb_spec (statusMessage res) ""); [contradiction|].
      split; reflexivity.
    + intros -> ->. split; reflexivity.
  - intros Hlt. apply Z.leb_gt in Hlt. rewrite Hlt. split; reflexivity.
Qed.


Lemma time_text_elapsed (res : Response) :
  time_text res = pretty (default 0%Z (responseTime res)) ++ "ms".
Proof.
  unfold time_text. destruct (responseTime res) as [t|]; [|reflexivity].
  simpl. destruct (Z.eqb_spec t 0) as [-> | _]; reflexivity.
Qed.

(** C9.  The summary message of a logged request is
    [METHOD url statusCode elapsedMs"ms" - size].  The elapsed time is the
    response time, 0 when it is absent, so that a missing time gives [0ms].
    The size is the Content-Length header as it is: a [null] or [undefined]
    header gives [0b], a string is rendered unchanged, the string ["0"]
    included (only the empty string gives [0b]), a number is rendered in
    decimal (0 gives [0b]) and a list of strings joined by commas. *)
Theorem summary_message_format (req : Request) (res : Response) (w : World) :
  autoLogging_ignore req = false ->
  exists s,
    summaries (world_after (expressLogger captureStack req res) w)
      = (summaries w ++ [s])%list /\
    s_message s
      = method req ++ " " ++ url req ++ " " ++ pretty (statusCode res) ++ " "
          ++ (pretty (default 0%Z (responseTime res)) ++ "ms") ++ " - "
          ++ match contentLength res with
             | HUndefined | HNull => "0b"
             | HStr v => if String.eqb v "" then "0b" else v
             | HNum n => if (n =? 0)%Z then "0b" else pretty n
             | HList l => String.concat "," l
             end /\
    (responseTime res = None ->
       s_message s
       = method req ++ " " ++ url req ++ " " ++ pretty (statusCode res) ++ " 0ms - "
           ++ size_text res) /\
    (contentLength res = HNull \/ contentLength res = HUndefined -> size_text res = "0b") /\
    (contentLength res = HStr "0" -> size_text res = "0") /\
    (forall v, contentLength res = HStr v -> v <> "" -> size_text res = v).
Proof.
  intros Hi. eexists. split; [apply expressLogger_summaries; exact Hi|].
  cbn [s_message]. split; [|split].
  - unfold customSuccessMessage. rewrite time_text_elapsed. reflexivity.
  - intros Hrt. unfold customSuccessMessage, time_text. rewrite Hrt. reflexivity.
  - unfold size_text. repeat split.
    + intros [-> | ->]; reflexivity.
    + intros ->. reflexivity.
    + intros v -> Hv. destruct (String.eqb_spec v ""); [contradiction | reflexivity].
Qed.

End MiddlewareFacts.

(** The requests and responses of the middleware's test suite. *)
Example summary_message_200 :
  customSuccessMessage
    (mkRequest "GET" "/api/v1/test" "/api/v1" (Some (mkRoute "/test"))
               VUndefined VUndefined VUndefined)
    (mkResponse 200 "OK" VUndefined (Some 123%Z) (HStr "456"))
  = "GET /api/v1/test 200 123ms - 456".
Proof. reflexivity. Qed.

Example summary_message_no_length :
  customErrorMessage
    (mkRequest "GET" "/api/v1/test" "/api/v1" (Some (mkRoute "/test"))
               VUndefined VUndefined VUndefined)
    (mkResponse 500 "" VUndefined None HNull)
  = "GET /api/v1/test 500 0ms - 0b".
Proof. reflexivity. Qed.

Lemma summary_level_and_error_witness :
  exists s,
    summaries (world_after
                 (expressLogger (fun _ => "")
                    (mkRequest "GET" "/api/v1/missing" "" None VUndefined VUndefined VUndefined)
                    (mkResponse 500 "" VUndefined None HNull)) world0) = [s] /\
    s_level s = error /\
    s_props s !! "error" = Some (VError "Error" "Request failed" "") /\
    s_props s !! "route" = Some (VStr "N/A").
Proof.
  destruct (summary_level_and_error (fun _ => "")
              (mkRequest "GET" "/api/v1/missing" "" None VUndefined VUndefined VUndefined)
              (mkResponse 500 "" VUndefined None HNull) world0)
    as (s & Hs & Herr & _); [reflexivity|].
  exists s. split; [exact Hs|].
  destruct Herr as (Hl & _ & _ & He); [simpl; lia|].
  split; [exact Hl|]. split.
  - apply He; reflexivity.
  - vm_compute in Hs. injection Hs as <-. vm_compute. reflexivity.
Defined.



Lemma summary_message_format_witness :
  exists s,
    summaries (world_after
                 (expressLogger (fun _ => "")
                    (mkRequest "GET" "/api/v1/test" "/api/v1" (Some (mkRoute "/test"))
                               VUndefined VUndefined VUndefined)
                    (mkResponse 200 "OK" VUndefined (Some 123%Z) (HStr "456"))) world0) = [s] /\
    s_message s = "GET /api/v1/test 200 123ms - 456".
Proof.
  destruct (summary_message_format (fun _ => "")
              (mkRequest "GET" "/api/v1/test" "/api/v1" (Some (mkRoute "/test"))
                         VUndefined VUndefined VUndefined)
              (mkResponse 200 "OK" VUndefined (Some 123%Z) (HStr "456")) world0)
    as (s & Hs & Hm & _); [reflexivity|].
  exists s. split; [exact Hs | exact Hm].
Defined.

(** ** [flush] *)

Section FlushFacts.

(** A settled promise stays as it is, whatever the sink signals later. *)
Lemma settled_stays (signals : list value) (p : Promise) :
  p <> Pending ->
  fold_left (fun p err => flush_callback err p) signals p = p.
Proof.
  revert p. induction signals as [|sig signals IH]; intros p Hp; [reflexivity|].
  simpl. rewrite IH.
  - unfold flush_callback. destruct p; [contradiction| |];
      destruct (truthy sig); reflexivity.
  - unfold flush_callback. destruct p; [contradiction| |];
      destruct (truthy sig); discriminate.
Qed.

(** The outcome is settled by the first signal of the sink. *)
Lemma flush_first (sig : value) (rest : list value) :
  flush (sig :: rest) = if truthy sig then Rejected sig else Fulfilled VUndefined.
Proof.
  unfold flush. simpl. rewrite settled_stays.
  - reflexivity.
  - unfold flush_callback. destruct (truthy sig); discriminate.
Qed.

(** C10.  The promise [flush()] returns is fulfilled, with no value,
    exactly when the sink's callback signals success (is called without an
    error), and is rejected with an error exactly when the sink's callback
    is called with that very error; until the sink signals, it is
    pending. *)
Theorem flush_outcome (signals : list value) :
  (flush signals = Pending <-> signals = []) /\
  (forall v, flush signals = Fulfilled v <->
     v = VUndefined /\ exists sig rest, signals = sig :: rest /\ truthy sig = false) /\
  (forall e, flush signals = Rejected e <->
     exists rest, signals = e :: rest /\ truthy e = true).
Proof.
  destruct signals as [|sig rest].
  - split; [split; reflexivity|]. split.
    + intros v. split; [discriminate | intros (_ & s & r & H & _); discriminate H].
    + intros e. split; [discriminate | intros (r & H & _); discriminate H].
  - rewrite flush_first. destruct (truthy sig) eqn:Ht.
    + split; [split; discriminate|]. split.
      * intros v. split; [discriminate|].
        intros (_ & s & r & [= <- <-] & Hs). congruence.
      * intros e. split.
        -- intros [= <-]. eauto.
        -- intros (r & [= <- <-] & _). reflexivity.
    + split; [split; discriminate|]. split.
      * intros v. split.
        -- intros [= <-]. split; [reflexivity|]. eauto.
        -- intros (-> & _). reflexivity.
      * intros e. split; [discriminate|].
        intros (r & [= <- <-] & He). congruence.
Qed.

End FlushFacts.

(** The two sinks of the facade's test suite. *)
Example flush_resolves : flush [VUndefined] = Fulfilled VUndefined.
Proof. reflexivity. Qed.

Example flush_rejects :
  flush [VError "Error" "Disk full" ""] = Rejected (VError "Error" "Disk full" "").
Proof. reflexivity. Qed.

Lemma flush_outcome_witness :
  flush [VError "Error" "I/O error: write failed" ""]
    = Rejected (VError "Error" "I/O error: write failed" "")
  /\ flush [VUndefined] = Fulfilled VUndefined.
Proof.
  split.
  - apply (proj2 (proj2 (flush_outcome [VError "Error" "I/O error: write failed" ""]))).
    exists []. split; reflexivity.
  - apply (proj1 (proj2 (flush_outcome [VUndefined]))).
    split; [reflexivity|]. exists VUndefined, []. split; reflexivity.
Defined.

(** * Further properties of the code *)

(** ** The facade *)

Section FacadeFurther.

Variable packageInfo : gmap string value.

(** X1.  When the primary argument is not a string the second argument is
    never looked at: the call does the same whatever is passed there. *)
Theorem facade_ignores_second_argument (lvl : Level) (arg1 arg2 arg2' : value) :
  String.eqb (typeof arg1) "string" = false ->
  logger_at packageInfo lvl arg1 arg2 = logger_at packageInfo lvl arg1 arg2'.
Proof.
  intros Hs. rewrite logger_at_eq.
  destruct (nullish_or_not arg1) as [Hnull | [Hn Hu]].
  - rewrite !createLogHandler_nullish by assumption. reflexivity.
  - rewrite !createLogHandler_object by assumption. reflexivity.
Qed.

(** X2.  An error without own enumerable properties, as [new Error(msg)]
    builds it, passed as the primary argument is read as an object input:
    its message, when it is not empty, becomes the message of the line, and
    the line carries no field of the error, neither its name nor its
    stack. *)
Theorem facade_error_as_primary (lvl : Level) (name msg stack : string)
    (arg2 : value) (w : World) :
  writes_line (logger_at packageInfo lvl (VError name msg stack) arg2) w
    (mkLogRecord lvl (now w) (base packageInfo) (value_of mixin w ∅)
       (Some (VObj ∅))
       (if String.eqb msg "" then None else Some (VStr msg))).
Proof.
  rewrite logger_at_eq, createLogHandler_object by (reflexivity || discriminate).
  cbv zeta. change (get_prop (VError name msg stack) "message") with (VStr msg).
  change (get_prop (VError name msg stack) "data") with VUndefined.
  change (own_props (VError name msg stack)) with (∅ : gmap string value).
  rewrite !delete_empty. simpl.
  destruct (String.eqb msg ""); apply pinoLogger_run.
Qed.


End FacadeFurther.

Lemma facade_ignores_second_argument_witness :
  logger_info ∅ (VObj {[ "event" := VStr "click" ]}) (VObj {[ "userId" := VNum 123 ]})
  = logger_info ∅ (VObj {[ "event" := VStr "click" ]}) VUndefined.
Proof.
  apply (facade_ignores_second_argument ∅ info). reflexivity.
Defined.

(** ** The middleware and the facade together *)

Section MiddlewareFurther.

Variable captureStack : string -> string.
Variable packageInfo : gmap string value.


(** X4.  A request whose route was not resolved is logged with the route
    ["N/A"], and the request context is left as it was: a request name
    stored before stays. *)
Theorem unresolved_route_keeps_context (req : Request) (res : Response) (w : World) :
  autoLogging_ignore req = false ->
  route req = None ->
  context (world_after (expressLogger captureStack req res) w) = context w /\
  exists s,
    summaries (world_after (expressLogger captureStack req res) w)
      = (summaries w ++ [s])%list /\
    s_props s !! "route" = Some (VStr "N/A").
Proof.
  intros Hi Hroute. split.
  - unfold world_after. rewrite expressLogger_logged by assumption. simpl.
    rewrite customProps_world, Hroute. reflexivity.
  - eexists. split; [apply expressLogger_summaries; exact Hi|].
    cbn [s_props]. unfold value_of, customProps. rewrite Hroute. simpl.
    destruct (400 <=? statusCode res)%Z.
    + rewrite lookup_insert_ne by discriminate.
      rewrite lookup_insert_ne by discriminate. apply lookup_singleton_eq.
    + rewrite lookup_insert_ne by discriminate. apply lookup_singleton_eq.
Qed.

(** X5.  The custom properties of a summary are [type], always
    ["http_request"], [route], and [error] when the status is 400 or more:
    no other key is ever added. *)
Theorem summary_props_keys (req : Request) (res : Response) (w : World) :
  autoLogging_ignore req = false ->
  exists s,
    summaries (world_after (expressLogger captureStack req res) w)
      = (summaries w ++ [s])%list /\
    s_props s !! "type" = Some (VStr "http_request") /\
    dom (s_props s)
    = if (400 <=? statusCode res)%Z
      then ({[ "type"; "route"; "error" ]} : gset string)
      else {[ "type"; "route" ]}.
Proof.
  intros Hi. eexists. split; [apply expressLogger_summaries; exact Hi|].
  cbn [s_props]. unfold value_of, customProps.
  destruct (route req); simpl; destruct (400 <=? statusCode res)%Z; split;
    try (rewrite ?dom_insert_L, ?dom_singleton_L; set_solver);
    rewrite ?(lookup_insert_ne _ "error") by discriminate;
    apply lookup_insert_eq.
Qed.

End MiddlewareFurther.


Lemma unresolved_route_keeps_context_witness :
  context (world_after
             (expressLogger (fun _ => "")
                (mkRequest "GET" "/nowhere" "" None VUndefined VUndefined VUndefined)
                (mkResponse 404 "Not Found" VUndefined None HUndefined)) world0)
  = context world0.
Proof.
  apply (unresolved_route_keeps_context (fun _ => "")
           (mkRequest "GET" "/nowhere" "" None VUndefined VUndefined VUndefined)
           (mkResponse 404 "Not Found" VUndefined None HUndefined) world0);
    reflexivity.
Defined.

Lemma summary_props_keys_witness :
  exists s,
    summaries (world_after
                 (expressLogger (fun _ => "")
                    (mkRequest "GET" "/nowhere" "" None VUndefined VUndefined VUndefined)
                    (mkResponse 404 "Not Found" VUndefined None HUndefined)) world0) = [s] /\
    dom (s_props s) = ({[ "type"; "route"; "error" ]} : gset string).
Proof.
  destruct (summary_props_keys (fun _ => "")
              (mkRequest "GET" "/nowhere" "" None VUndefined VUndefined VUndefined)
              (mkResponse 404 "Not Found" VUndefined None HUndefined) world0)
    as (s & Hs & _ & Hd); [reflexivity|].
  exists s. split; [exact Hs | exact Hd].
Defined.

(** ** The error helpers and the error middleware *)

Import ErrorsHelper ErrorsMiddleware.

Section ErrorsFacts.

Lemma read_prop_defined {S : Type} (v : value) (k : string) :
  v <> VNull -> v <> VUndefined -> @read_prop S v k = ret (get_prop v k).
Proof. intros Hn Hu. destruct v; try reflexivity; contradiction. Qed.

Lemma read_prop_nullish {S : Type} (v : value) (k : string) :
  v = VNull \/ v = VUndefined -> @read_prop S v k = throw TypeError.
Proof. intros [-> | ->]; reflexivity. Qed.

(** The only code of the dictionary is [RECORD_NOT_FOUND]. *)
Lemma dictionaryError_found (code : value) :
  dictionaryError code
  = if strict_eq_string code "RECORD_NOT_FOUND"
    then Some (mkDictionaryError "RECORD_NOT_FOUND" 404
                 "Unable to find the record with the given id.")
    else None.
Proof.
  unfold dictionaryError, errorsDictionary, databaseErrorsDictionary. simpl.
  destruct (strict_eq_string code "RECORD_NOT_FOUND"); reflexivity.
Qed.

Lemma strict_eq_string_true (v : value) (s : string) :
  strict_eq_string v s = true <-> v = VStr s.
Proof.
  destruct v; simpl; try (split; [discriminate | intros H; discriminate H]).
  rewrite String.eqb_eq. split; [intros ->; reflexivity | intros [= ->]; reflexivity].
Qed.

(** What [errorHandler] sends for an error that is an object or a
    primitive. *)
Lemma errorHandler_run (err : value) (sent : list Sent) :
  err <> VNull -> err <> VUndefined ->
  errorHandler err sent
  = (Returns tt,
     (sent ++ [if strict_eq_string (get_prop err "code") "RECORD_NOT_FOUND"
               then mkSent (VNum 404)
                      {[ "message" := VStr "Unable to find the record with the given id." ]}
               else mkSent (ceo_statusCode (defaultError err))
                      {[ "message" := ceo_message (defaultError err) ]}])%list).
Proof.
  intros Hn Hu. unfold errorHandler. rewrite read_prop_defined by assumption.
  unfold bind, ret. rewrite dictionaryError_found.
  destruct (strict_eq_string (get_prop err "code") "RECORD_NOT_FOUND") eqn:Hc.
  - apply strict_eq_string_true in Hc. rewrite Hc. reflexivity.
  - destruct (truthy (get_prop err "code")); reflexivity.
Qed.

(** X7.  An error whose [code] is [RECORD_NOT_FOUND] is answered from the
    dictionary, with status 404 and the dictionary's message, whatever
    [statusCode] and [message] the error itself carries. *)
Theorem errorHandler_dictionary_code (err : value) (sent : list Sent) :
  get_prop err "code" = VStr "RECORD_NOT_FOUND" ->
  err <> VNull -> err <> VUndefined ->
  errorHandler err sent
  = (Returns tt,
     (sent ++ [mkSent (VNum 404)
                 {[ "message" := VStr "Unable to find the record with the given id." ]}])%list).
Proof.
  intros Hc Hn Hu. rewrite errorHandler_run by assumption. rewrite Hc. reflexivity.
Qed.

(** X8.  Any other [code], or none, is ignored: the status sent is the
    error's [statusCode] when it is truthy and 500 otherwise, and the
    message sent is the error's [message] when it is truthy and
    ["Internal server error."] otherwise. *)
Theorem errorHandler_default (err : value) (sent : list Sent) :
  get_prop err "code" <> VStr "RECORD_NOT_FOUND" ->
  err <> VNull -> err <> VUndefined ->
  errorHandler err sent
  = (Returns tt,
     (sent ++ [mkSent
                 (if truthy (get_prop err "statusCode") then get_prop err "statusCode"
                  else VNum 500)
                 {[ "message" :=
                      if truthy (get_prop err "message") then get_prop err "message"
                      else VStr "Internal server error." ]}])%list).
Proof.
  intros Hc Hn Hu. rewrite errorHandler_run by assumption.
  destruct (strict_eq_string (get_prop err "code") "RECORD_NOT_FOUND") eqn:He.
  - apply strict_eq_string_true in He. contradiction.
  - reflexivity.
Qed.

(** X9.  [errorHandler] hands exactly one response to [res], and neither
    its status nor its message is ever falsy (0, the empty string, [null],
    [undefined]); on an error that is [null] or [undefined] it throws a
    TypeError before anything is handed over. *)
Theorem errorHandler_sends_truthy (err : value) (sent : list Sent) :
  (err <> VNull /\ err <> VUndefined /\
   exists status msg,
     errorHandler err sent
     = (Returns tt, (sent ++ [mkSent status {[ "message" := msg ]}])%list) /\
     truthy status = true /\ truthy msg = true)
  \/ ((err = VNull \/ err = VUndefined) /\
      errorHandler err sent = (Throws TypeError, sent)).
Proof.
  destruct (nullish_or_not err) as [Hnull | [Hn Hu]].
  - right. split; [assumption|].
    unfold errorHandler. rewrite read_prop_nullish by assumption. reflexivity.
  - left. split; [assumption|]. split; [assumption|].
    rewrite errorHandler_run by assumption.
    destruct (strict_eq_string (get_prop err "code") "RECORD_NOT_FOUND").
    + eexists _, _. split; [reflexivity|]. split; reflexivity.
    + eexists _, _. split; [reflexivity|]. unfold defaultError. cbn [ceo_statusCode ceo_message].
      split.
      * destruct (truthy (get_prop err "statusCode")) eqn:Ht; [exact Ht | reflexivity].
      * destruct (truthy (get_prop err "message")) eqn:Ht; [exact Ht | reflexivity].
Qed.

Variable packageInfo : gmap string value.

(** The line [handleErrors] writes for an error. *)
Lemma handleErrors_line (err : value) (w : World) :
  writes_line
    (logger_error packageInfo
       (VObj {[ "message" := VStr "The errors handler middleware was triggered.";
                "error" := err ]}) VUndefined) w
    (mkLogRecord error (now w) (base packageInfo) (value_of mixin w ∅)
       (Some (VObj {[ "error" := err ]}))
       (Some (VStr "The errors handler middleware was triggered."))).
Proof.
  unfold logger_error.
  rewrite createLogHandler_object by (reflexivity || discriminate). cbv zeta.
  change (own_props (VObj ?o)) with o.
  assert (delete "data" (delete "message"
            ({[ "message" := VStr "The errors handler middleware was triggered.";
                "error" := err ]} : gmap string value))
          = {[ "error" := err ]}) as ->.
  { rewrite delete_insert_eq.
    rewrite (delete_id _ "message") by (apply lookup_singleton_ne; discriminate).
    apply delete_id. apply lookup_singleton_ne. discriminate. }
  assert (get_prop (VObj {[ "message" := VStr "The errors handler middleware was triggered.";
                            "error" := err ]}) "message"
          = VStr "The errors handler middleware was triggered.") as ->.
  { unfold get_prop. rewrite lookup_insert_eq. reflexivity. }
  assert (get_prop (VObj {[ "message" := VStr "The errors handler middleware was triggered.";
                            "error" := err ]}) "data" = VUndefined) as ->.
  { unfold get_prop. rewrite lookup_insert_ne by discriminate.
    rewrite lookup_singleton_ne by discriminate. reflexivity. }
  apply pinoLogger_run.
Qed.


(** X11.  An error whose [status] is 404 is always answered with status 404
    and ["Oops! Resource not found."], whatever [code], [statusCode] and
    [message] it carries. *)
Theorem handleErrors_not_found (err : value) (w : World) (sent : list Sent) :
  get_prop err "status" = VNum 404 ->
  err <> VNull -> err <> VUndefined ->
  snd (snd (handleErrors packageInfo err (w, sent)))
  = (sent ++ [mkSent (VNum 404) {[ "message" := VStr "Oops! Resource not found." ]}])%list.
Proof.
  intros Hs Hn Hu.
  unfold handleErrors, bind at 1, on_world. cbn [fst snd].
  rewrite (handleErrors_line err w).
  unfold bind. rewrite read_prop_defined by assumption. unfold ret.
  rewrite Hs.
  change (truthy (VNum 404) && strict_eq_number (VNum 404) StatusCodes.NOT_FOUND) with true.
  cbv iota. unfold on_res. cbn [fst snd].
  rewrite errorHandler_run by discriminate. reflexivity.
Qed.

End ErrorsFacts.

Lemma errorHandler_dictionary_code_witness :
  errorHandler
    (VObj {[ "code" := VStr "RECORD_NOT_FOUND"; "statusCode" := VNum 500;
             "message" := VStr "query failed" ]}) []
  = (Returns tt,
     [mkSent (VNum 404)
        {[ "message" := VStr "Unable to find the record with the given id." ]}]).
Proof.
  apply (errorHandler_dictionary_code
           (VObj {[ "code" := VStr "RECORD_NOT_FOUND"; "statusCode" := VNum 500;
                    "message" := VStr "query failed" ]}) []);
    [reflexivity | discriminate | discriminate].
Defined.

Lemma errorHandler_default_witness :
  errorHandler
    (VObj {[ "code" := VStr "ENOTFOUND";
             "message" := VStr "There was an error establishing a database connection." ]}) []
  = (Returns tt,
     [mkSent (VNum 500)
        {[ "message" := VStr "There was an error establishing a database connection." ]}]).
Proof.
  rewrite (errorHandler_default
             (VObj {[ "code" := VStr "ENOTFOUND";
                      "message" :=
                        VStr "There was an error establishing a database connection." ]}) []);
    [vm_compute; reflexivity | vm_compute; discriminate | discriminate | discriminate].
Defined.


Lemma handleErrors_not_found_witness :
  snd (snd (handleErrors ∅
              (VObj {[ "status" := VNum 404; "code" := VStr "RECORD_NOT_FOUND";
                       "message" := VStr "not found" ]}) (world0, [])))
  = [mkSent (VNum 404) {[ "message" := VStr "Oops! Resource not found." ]}].
Proof.
  apply (handleErrors_not_found ∅
           (VObj {[ "status" := VNum 404; "code" := VStr "RECORD_NOT_FOUND";
                    "message" := VStr "not found" ]}) world0 []);
    [reflexivity | discriminate | discriminate].
Defined.

(** ** The CORS origin handler *)

Import Cors.

Section SplitFacts.

Lemma split_comma_nonempty (s : string) : split_comma s <> [].
Proof.
  destruct s as [|c rest]; cbn [split_comma]; [intros H; discriminate H|].
  destruct (String.eqb (String c EmptyString) ","); [intros H; discriminate H|].
  destruct (split_comma rest); intros H; discriminate H.
Qed.

(** Joining the pieces with commas gives the string back. *)
Lemma split_comma_concat (s : string) : String.concat "," (split_comma s) = s.
Proof.
  induction s as [|c rest IH]; [reflexivity|].
  cbn [split_comma].
  destruct (String.eqb_spec (String c EmptyString) ",") as [Hc | Hc].
  - injection Hc as ->.
    destruct (split_comma rest) as [|p ps] eqn:Hsplit;
      [exfalso; exact (split_comma_nonempty rest Hsplit)|].
    cbn [String.concat] in *. rewrite IH. reflexivity.
  - destruct (split_comma rest) as [|p ps] eqn:Hsplit;
      [exfalso; exact (split_comma_nonempty rest Hsplit)|].
    destruct ps as [|q qs]; cbn [String.concat] in *; rewrite <- IH; reflexivity.
Qed.

Lemma startsWith_slash_app (s : string) : startsWith_slash ("/" ++ s) = true.
Proof. reflexivity. Qed.

Lemma endsWith_slash_app (s : string) : endsWith_slash (s ++ "/") = true.
Proof.
  induction s as [|c rest IH]; [reflexivity|].
  simpl. destruct (rest ++ "/") eqn:Hr; [|exact IH].
  destruct rest; discriminate Hr.
Qed.

Lemma substring_prefix (s t : string) :
  String.substring 0 (String.length s) (s ++ t) = s.
Proof.
  induction s as [|c rest IH]; simpl.
  - destruct t; reflexivity.
  - rewrite IH. reflexivity.
Qed.

Lemma length_app_slash (s : string) :
  String.length (s ++ "/") = S (String.length s).
Proof. induction s as [|c rest IH]; simpl; [reflexivity | rewrite IH; reflexivity]. Qed.

(** [slice(1, -1)] removes exactly the two delimiters of a pattern. *)
Lemma slice_delimited (c : Ascii.ascii) (source : string) :
  slice_1_m1 (String c (source ++ "/")) = source.
Proof.
  unfold slice_1_m1. cbn [String.length]. rewrite length_app_slash.
  replace (S (S (String.length source)) - 2)%nat with (String.length source) by lia.
  cbn [String.substring]. apply substring_prefix.
Qed.

Lemma slice_pattern (source : string) : slice_1_m1 ("/" ++ source ++ "/") = source.
Proof. exact (slice_delimited _ source). Qed.

End SplitFacts.

Section CorsFacts.

Variable trim : string -> string.
Variable regexpCompiles : string -> bool.
Variable regexpTest : string -> string -> bool.

(** No entry made from a configured string or from an array item other
    than [undefined] lets a request without origin through. *)
Lemma format_url_no_origin (url : string) (item : OriginItem) :
  format_url trim regexpCompiles url = Some item -> item_allows regexpTest None item = false.
Proof.
  unfold format_url, new_RegExp.
  destruct (startsWith_slash (trim url) && endsWith_slash (trim url)).
  - destruct (regexpCompiles _); [|discriminate]. intros [= <-]. reflexivity.
  - intros [= <-]. reflexivity.
Qed.

Lemma format_item_no_origin (item item' : OriginItem) :
  item <> ItemValue VUndefined ->
  format_item regexpCompiles item = Some item' -> item_allows regexpTest None item' = false.
Proof.
  intros Hne. unfold format_item, new_RegExp.
  destruct item as [src | v].
  - intros [= <-]. reflexivity.
  - destruct v; try (intros [= <-]; reflexivity); [contradiction Hne; reflexivity|].
    destruct (startsWith_slash s && endsWith_slash s).
    + destruct (regexpCompiles _); [|discriminate]. intros [= <-]. reflexivity.
    + intros [= <-]. reflexivity.
Qed.

Lemma existsb_false_Forall {A : Type} (p : A -> bool) (l : list A) :
  Forall (fun x => p x = false) l -> existsb p l = false.
Proof. induction 1 as [|x l Hx _ IH]; simpl; [reflexivity | rewrite Hx; exact IH]. Qed.

(** X12.  In development a request without origin (none, or an empty one)
    is allowed whatever the whitelist holds, provided the configured
    patterns compile. *)
Theorem originHandler_development_without_origin
    (corsOrigin : CorsOrigin) (whitelist : list OriginItem) (origin : option string) :
  formatAcceptedOrigins trim regexpCompiles corsOrigin = Some whitelist ->
  no_origin origin = true ->
  originHandler trim regexpCompiles regexpTest true corsOrigin origin = Some Allow.
Proof.
  intros Hw Ho. unfold Cors.originHandler. rewrite Hw. simpl. rewrite Ho. reflexivity.
Qed.

(** The whitelist of a configuration, when every pattern compiles, lets no
    request without origin through. *)
Lemma whitelist_no_origin (corsOrigin : CorsOrigin) (whitelist : list OriginItem) :
  match corsOrigin with
  | CfgArray items => Forall (fun item => item <> ItemValue VUndefined) items
  | _ => True
  end ->
  formatAcceptedOrigins trim regexpCompiles corsOrigin = Some whitelist ->
  existsb (item_allows regexpTest None) whitelist = false.
Proof.
  intros Hcfg Hw. apply existsb_false_Forall.
  destruct corsOrigin as [s | items | ]; simpl in Hw.
  - apply mapM_Some_1 in Hw.
    induction Hw as [|url item urls wl Hf _ IH]; constructor;
      [exact (format_url_no_origin url item Hf) | exact IH].
  - apply mapM_Some_1 in Hw. revert Hcfg.
    induction Hw as [|i item l wl Hf _ IH]; intros Hcfg; constructor.
    + apply (format_item_no_origin i item); [|exact Hf].
      exact (Forall_inv Hcfg).
    + apply IH. exact (Forall_inv_tail Hcfg).
  - injection Hw as <-. constructor.
Qed.

(** X13.  Outside development a request without [Origin] header is never
    allowed, whatever the configured string or array (an array that holds
    no [undefined]) lists: it is denied with the message
    [Origin 'undefined' not allowed by CORS.] when every configured pattern
    compiles, and the handler throws when one does not. *)
Theorem originHandler_production_requires_origin (corsOrigin : CorsOrigin) :
  match corsOrigin with
  | CfgArray items => Forall (fun item => item <> ItemValue VUndefined) items
  | _ => True
  end ->
  originHandler trim regexpCompiles regexpTest false corsOrigin None
  = match formatAcceptedOrigins trim regexpCompiles corsOrigin with
    | Some _ => Some (Deny "Origin 'undefined' not allowed by CORS.")
    | None => None
    end /\
  originHandler trim regexpCompiles regexpTest false corsOrigin None <> Some Allow.
Proof.
  intros Hcfg. unfold Cors.originHandler.
  destruct (formatAcceptedOrigins trim regexpCompiles corsOrigin) as [whitelist|] eqn:Hw.
  - simpl. rewrite (whitelist_no_origin corsOrigin whitelist Hcfg Hw).
    split; [reflexivity | discriminate].
  - split; [reflexivity | discriminate].
Qed.

(** X14.  Every piece of a comma-separated configuration that is not
    written as a pattern is an allowed origin once trimmed, in every
    environment, when every configured pattern compiles; the handler throws
    when one does not. *)
Theorem originHandler_listed_origin_allowed
    (isDevelopment : bool) (s : string) (entry : string) :
  In entry (split_comma s) ->
  startsWith_slash (trim entry) && endsWith_slash (trim entry) = false ->
  originHandler trim regexpCompiles regexpTest isDevelopment (CfgString s)
    (Some (trim entry))
  = match formatAcceptedOrigins trim regexpCompiles (CfgString s) with
    | Some _ => Some Allow
    | None => None
    end.
Proof.
  intros Hin Hplain. unfold Cors.originHandler.
  destruct (formatAcceptedOrigins trim regexpCompiles (CfgString s))
    as [whitelist|] eqn:Hw; [|reflexivity].
  simpl. destruct (isDevelopment && _); [reflexivity|].
  assert (existsb (item_allows regexpTest (Some (trim entry))) whitelist = true) as ->;
    [|reflexivity].
  simpl in Hw. apply mapM_Some_1 in Hw.
  induction Hw as [|url item urls wl Hf _ IH]; [destruct Hin|].
  simpl. destruct Hin as [-> | Hin].
  - unfold format_url in Hf. rewrite Hplain in Hf. injection Hf as <-.
    simpl. rewrite String.eqb_refl. reflexivity.
  - rewrite (IH Hin). apply orb_true_r.
Qed.

(** X15.  With an array of plain strings as configuration, a request that
    has an origin is allowed exactly when its origin is one of the strings,
    and is otherwise denied with a message that quotes the origin. *)
Theorem originHandler_exact_strings
    (isDevelopment : bool) (origins : list string) (origin : string) :
  Forall (fun s => startsWith_slash s && endsWith_slash s = false) origins ->
  origin <> "" ->
  originHandler trim regexpCompiles regexpTest isDevelopment
    (CfgArray (map (fun s => ItemValue (VStr s)) origins)) (Some origin)
  = Some (if bool_decide (origin ∈ origins) then Allow
          else Deny ("Origin '" ++ origin ++ "' not allowed by CORS.")).
Proof.
  intros Hplain Ho. unfold Cors.originHandler.
  assert (formatAcceptedOrigins trim regexpCompiles
            (CfgArray (map (fun s => ItemValue (VStr s)) origins))
          = Some (map (fun s => ItemValue (VStr s)) origins)) as ->.
  { simpl. apply mapM_Some_2.
    induction Hplain as [|s l Hs _ IH]; simpl; constructor; [|exact IH].
    simpl. rewrite Hs. reflexivity. }
  simpl. apply String.eqb_neq in Ho. rewrite Ho, andb_false_r.
  assert (existsb (item_allows regexpTest (Some origin)) (map (fun s => ItemValue (VStr s)) origins)
          = bool_decide (origin ∈ origins)) as ->.
  { clear Hplain. induction origins as [|s l IH]; cbn [map existsb].
    - symmetry. apply bool_decide_eq_false. apply not_elem_of_nil.
    - rewrite IH. cbn [Cors.item_allows strict_eq_origin].
      destruct (String.eqb_spec s origin) as [-> | Hne]; cbn [orb].
      + symmetry. apply bool_decide_eq_true. apply elem_of_cons. left. reflexivity.
      + apply bool_decide_ext. rewrite elem_of_cons. split; [tauto|].
        intros [-> | H]; [contradiction Hne; reflexivity | exact H]. }
  destruct (bool_decide (origin ∈ origins)); reflexivity.
Qed.

Lemma format_item_pattern (source : string) :
  format_item regexpCompiles (ItemValue (VStr ("/" ++ source ++ "/")))
  = new_RegExp regexpCompiles source.
Proof.
  cbn [format_item]. rewrite startsWith_slash_app.
  assert (endsWith_slash ("/" ++ source ++ "/") = true) as ->.
  { change ("/" ++ source ++ "/") with (("/" ++ source) ++ "/").
    apply endsWith_slash_app. }
  cbn [andb]. rewrite slice_pattern. reflexivity.
Qed.

(** X16.  An array entry written between slashes is a pattern, and the two
    slashes are stripped.  When the pattern does not compile the handler
    throws for every request, with or without origin, in every environment
    and whatever else the array lists.  When it compiles and is the only
    entry, a request with an origin is allowed exactly when the pattern
    matches the origin, never by equality with the entry, and a request
    without origin is allowed in development only. *)
Theorem originHandler_pattern_entry (source : string) :
  (regexpCompiles source = false ->
   forall (isDevelopment : bool) (items : list OriginItem) (origin : option string),
     In (ItemValue (VStr ("/" ++ source ++ "/"))) items ->
     originHandler trim regexpCompiles regexpTest isDevelopment (CfgArray items) origin
     = None) /\
  (regexpCompiles source = true ->
   forall (isDevelopment : bool) (origin : option string),
     originHandler trim regexpCompiles regexpTest isDevelopment
       (CfgArray [ItemValue (VStr ("/" ++ source ++ "/"))]) origin
     = Some match origin with
            | None =>
                if isDevelopment then Allow
                else Deny "Origin 'undefined' not allowed by CORS."
            | Some o =>
                if String.eqb o ""
                then (if isDevelopment then Allow else Deny "Origin '' not allowed by CORS.")
                else if regexpTest source o then Allow
                     else Deny ("Origin '" ++ o ++ "' not allowed by CORS.")
            end).
Proof.
  split.
  - intros Hbad isDevelopment items origin Hin.
    unfold Cors.originHandler.
    assert (formatAcceptedOrigins trim regexpCompiles (CfgArray items) = None) as ->;
      [|reflexivity].
    cbn [Cors.formatAcceptedOrigins]. apply mapM_None_2.
    apply Exists_exists. eexists. split; [apply list_elem_of_In; exact Hin|].
    rewrite format_item_pattern. unfold new_RegExp. rewrite Hbad. reflexivity.
  - intros Hok isDevelopment origin.
    unfold Cors.originHandler. cbn [Cors.formatAcceptedOrigins mapM].
    rewrite format_item_pattern. unfold new_RegExp. rewrite Hok. simpl.
    destruct origin as [o|]; cbn [no_origin Cors.item_allows existsb].
    + destruct (String.eqb_spec o "") as [-> | Hne].
      * rewrite andb_true_r. destruct isDevelopment; reflexivity.
      * rewrite andb_false_r, orb_false_r.
        destruct (regexpTest source o); reflexivity.
    + rewrite andb_true_r. destruct isDevelopment; reflexivity.
Qed.

End CorsFacts.

Lemma originHandler_development_without_origin_witness :
  Cors.originHandler (fun s => s) (fun _ => true) (fun _ _ => false) true
    (CfgArray [ItemValue (VStr "https://allowed.com")]) None = Some Allow.
Proof.
  apply (originHandler_development_without_origin (fun s => s) (fun _ => true)
           (fun _ _ => false) (CfgArray [ItemValue (VStr "https://allowed.com")])
           [ItemValue (VStr "https://allowed.com")] None); reflexivity.
Defined.

Lemma originHandler_production_requires_origin_witness :
  Cors.originHandler (fun s => s) (fun _ => true) (fun _ _ => false) false
    (CfgArray [ItemValue (VStr "https://allowed.com")]) None
  = Some (Deny "Origin 'undefined' not allowed by CORS.").
Proof.
  apply (originHandler_production_requires_origin (fun s => s) (fun _ => true)
           (fun _ _ => false) (CfgArray [ItemValue (VStr "https://allowed.com")])).
  constructor; [discriminate | constructor].
Defined.

Lemma originHandler_listed_origin_allowed_witness :
  Cors.originHandler (fun s => s) (fun _ => true) (fun _ _ => false) false
    (CfgString "https://domain1.com,https://domain2.com") (Some "https://domain2.com")
  = Some Allow.
Proof.
  apply (originHandler_listed_origin_allowed (fun s => s) (fun _ => true) (fun _ _ => false)
           false "https://domain1.com,https://domain2.com" "https://domain2.com").
  - right. left. reflexivity.
  - reflexivity.
Defined.

Lemma originHandler_exact_strings_witness :
  Cors.originHandler (fun s => s) (fun _ => true) (fun _ _ => false) false
    (CfgArray [ItemValue (VStr "https://allowed.com")]) (Some "https://not-allowed.com")
  = Some (Deny "Origin 'https://not-allowed.com' not allowed by CORS.").
Proof.
  apply (originHandler_exact_strings (fun s => s) (fun _ => true) (fun _ _ => false)
           false ["https://allowed.com"] "https://not-allowed.com").
  - constructor; [reflexivity | constructor].
  - discriminate.
Defined.

Lemma originHandler_pattern_entry_witness :
  Cors.originHandler (fun s => s) (fun source => negb (String.eqb source "+"))
    (fun source origin => String.prefix source origin)
    true (CfgArray [ItemValue (VStr "https://a.com"); ItemValue (VStr "/+/")]) None
  = None
  /\ Cors.originHandler (fun s => s) (fun source => negb (String.eqb source "+"))
       (fun source origin => String.prefix source origin)
       false (CfgArray [ItemValue (VStr "/http/")]) (Some "http://localhost:3000")
     = Some Allow.
Proof.
  split.
  - apply (proj1 (originHandler_pattern_entry (fun s => s)
                    (fun source => negb (String.eqb source "+"))
                    (fun source origin => String.prefix source origin) "+")).
    + reflexivity.
    + right. left. reflexivity.
  - apply (proj2 (originHandler_pattern_entry (fun s => s)
                    (fun source => negb (String.eqb source "+"))
                    (fun source origin => String.prefix source origin) "http")
             eq_refl false (Some "http://localhost:3000")).
Defined.

(** ** The body sanitizer *)

Import SanitizeBody.

Section DepthFacts.

Lemma depth_elem (elems : list value) (elem : value) :
  In elem elems -> (depth elem < depth (VArr elems))%nat.
Proof.
  cbn [depth]. induction elems as [|x l IH]; intros Hin; [destruct Hin|].
  cbn [foldr]. destruct Hin as [-> | Hin]; [lia|].
  specialize (IH Hin). lia.
Qed.

Lemma depth_entry (o : gmap string value) (k : string) (x : value) :
  o !! k = Some x -> (depth x < depth (VObj o))%nat.
Proof.
  cbn [depth]. revert k x.
  apply (map_fold_weak_ind
           (fun (r : nat) (m : gmap string value) =>
              forall k x, m !! k = Some x -> (depth x < S r)%nat)).
  - intros k x Hk. rewrite lookup_empty in Hk. discriminate Hk.
  - intros i y m r Hi IH k x Hk.
    rewrite lookup_insert in Hk. case_decide.
    + injection Hk as <-. lia.
    + specialize (IH k x Hk). lia.
Qed.

End DepthFacts.

Section SanitizeFacts.

Variable sanitize : string -> string.

Lemma stripTags_object (o : gmap string value) :
  stripTags sanitize (VObj o) = VObj (replaced_value sanitize <$> o).
Proof. reflexivity. Qed.

Lemma stripTags_is_object (v : value) :
  exists o, stripTags sanitize v = VObj o.
Proof. destruct v; eexists; reflexivity. Qed.

Lemma lookup_map {A B : Type} (f : A -> B) (l : list A) (i : nat) :
  map f l !! i = f <$> (l !! i).
Proof.
  revert i. induction l as [|x l IH]; intros [|i]; try reflexivity. apply IH.
Qed.

(** What [sanitizeBody] does to a state. *)
Lemma sanitizeBody_run (st : BodyState) :
  sanitizeBody sanitize st
  = (Returns tt,
     mkBodyState
       (if truthy (req_body st)
        then VObj (replaced_value sanitize <$> delete "_id" (own_props (req_body st)))
        else req_body st)
       (S (next_calls st))).
Proof.
  unfold sanitizeBody, bind, gets, modify, ret. cbn [fst snd].
  destruct (truthy (req_body st)); reflexivity.
Qed.

(** X17.  [sanitizeBody] never throws and calls [next] exactly once.  A
    falsy body (none, [null], an empty string, 0) is left as it is; any
    other body is replaced by a plain object that has the own keys of the
    body except [_id]. *)
Theorem sanitizeBody_outcome (st : BodyState) :
  fst (sanitizeBody sanitize st) = Returns tt /\
  next_calls (snd (sanitizeBody sanitize st)) = S (next_calls st) /\
  (truthy (req_body st) = false ->
     req_body (snd (sanitizeBody sanitize st)) = req_body st) /\
  (truthy (req_body st) = true ->
     exists o, req_body (snd (sanitizeBody sanitize st)) = VObj o /\
               dom o = dom (own_props (req_body st)) ∖ {[ "_id" ]}).
Proof.
  rewrite sanitizeBody_run. cbn [fst snd req_body next_calls].
  split; [reflexivity|]. split; [reflexivity|]. split.
  - intros ->. reflexivity.
  - intros ->. eexists. split; [reflexivity|].
    rewrite dom_fmap_L, dom_delete_L. reflexivity.
Qed.

(** X18.  In the new body every top-level string is sanitized, every
    number, boolean, [null] and [undefined] is kept as it is, and a nested
    object keeps all its keys, [_id] included: [_id] is removed at the top
    level only. *)
Theorem sanitizeBody_top_level (st : BodyState) (k : string) (v : value) :
  truthy (req_body st) = true ->
  k <> "_id" ->
  own_props (req_body st) !! k = Some v ->
  exists o,
    req_body (snd (sanitizeBody sanitize st)) = VObj o /\
    o !! "_id" = None /\
    (forall s, v = VStr s -> o !! k = Some (VStr (sanitize s))) /\
    (typeof v = "number" \/ typeof v = "boolean" \/ typeof v = "undefined" \/ v = VNull ->
       o !! k = Some v) /\
    (forall inner, v = VObj inner ->
       exists inner', o !! k = Some (VObj inner') /\ dom inner' = dom inner).
Proof.
  intros Ht Hk Hv. rewrite sanitizeBody_run. cbn [snd req_body]. rewrite Ht.
  eexists. split; [reflexivity|].
  split; [rewrite lookup_fmap, lookup_delete_eq; reflexivity|].
  assert ((replaced_value sanitize <$> delete "_id" (own_props (req_body st))) !! k
          = Some (replaced_value sanitize v)) as ->.
  { rewrite lookup_fmap, lookup_delete_ne by congruence. rewrite Hv. reflexivity. }
  split; [|split].
  - intros s ->. reflexivity.
  - intros [H | [H | [H | H]]]; destruct v; try discriminate H; reflexivity.
  - intros inner ->. eexists. split; [reflexivity|]. apply dom_fmap_L.
Qed.

(** X19.  An array keeps its length; its strings are sanitized, but an
    array that is itself an element of an array is returned untouched,
    whatever it holds: the strings inside it are not sanitized. *)
Theorem stripTags_array_elements (o : gmap string value) (k : string) (elems : list value) :
  o !! k = Some (VArr elems) ->
  exists o' elems',
    stripTags sanitize (VObj o) = VObj o' /\
    o' !! k = Some (VArr elems') /\
    length elems' = length elems /\
    (forall i s, elems !! i = Some (VStr s) -> elems' !! i = Some (VStr (sanitize s))) /\
    (forall i inner, elems !! i = Some (VArr inner) -> elems' !! i = Some (VArr inner)).
Proof.
  intros Hk. rewrite stripTags_object.
  eexists _, (map (replaced_elem sanitize) elems). split; [reflexivity|].
  split; [rewrite lookup_fmap, Hk; reflexivity|].
  split; [apply length_map|].
  split; intros i x Hx; rewrite lookup_map, Hx; reflexivity.
Qed.

End SanitizeFacts.

Section SanitizeCompose.

Variables f g h : string -> string.
Hypothesis Hcompose : forall s, g (f s) = h s.

Lemma sanitizeString_compose (v : value) :
  sanitizeString g (sanitizeString f v) = sanitizeString h v.
Proof.
  destruct v; try reflexivity.
  unfold sanitizeString. simpl. rewrite Hcompose. reflexivity.
Qed.

Lemma sanitizeString_not_plain (v : value) :
  isPlainObject v = false -> isPlainObject (sanitizeString f v) = false.
Proof. destruct v; intros H; try discriminate H; reflexivity. Qed.

Lemma stripTags_compose_depth (n : nat) :
  forall v, (depth v < n)%nat -> stripTags g (stripTags f v) = stripTags h v.
Proof.
  induction n as [|n IH]; intros v Hd; [lia|].
  assert (forall elem, (depth elem < n)%nat ->
            replaced_elem g (replaced_elem f elem) = replaced_elem h elem) as Helem.
  { intros elem He. unfold replaced_elem.
    destruct (isPlainObject elem) eqn:Hp.
    - destruct (stripTags_is_object f elem) as [o' Ho'].
      rewrite <- (IH elem He). rewrite Ho'. reflexivity.
    - rewrite (sanitizeString_not_plain elem Hp). apply sanitizeString_compose. }
  destruct v as [ | |b|z| |s|l|nm m st|o]; try reflexivity.
  rewrite !stripTags_object. f_equal.
  rewrite <- map_fmap_compose. apply map_fmap_ext.
  intros k x Hx. pose proof (depth_entry o k x Hx) as Hdx.
  assert (depth x < n)%nat as Hxn by lia.
  destruct x as [ | |b|z| |s|elems|nm m st|inner];
    try exact (Helem _ Hxn).
  cbn [replaced_value compose]. f_equal.
  rewrite map_map. apply map_ext_in.
  intros elem Hin. apply Helem.
  pose proof (depth_elem elems elem Hin). lia.
Qed.

(** X20.  Stripping with [f] and then with [g] is stripping once with
    [g] after [f]: a second pass meets every string the first pass
    sanitized, and no other. *)
Theorem stripTags_compose (v : value) :
  stripTags g (stripTags f v) = stripTags h v.
Proof. apply (stripTags_compose_depth (S (depth v))). lia. Qed.

End SanitizeCompose.

Section SanitizeTwice.

Variable sanitize : string -> string.

(** X21.  When the sanitizer changes nothing in its own output, running
    the middleware a second time changes nothing in the body. *)
Theorem sanitizeBody_idempotent (st : BodyState) :
  (forall s, sanitize (sanitize s) = sanitize s) ->
  req_body (snd (sanitizeBody sanitize (snd (sanitizeBody sanitize st))))
  = req_body (snd (sanitizeBody sanitize st)).
Proof.
  intros Hidem. rewrite !sanitizeBody_run. cbn [snd req_body].
  destruct (truthy (req_body st)) eqn:Ht; [|rewrite Ht; reflexivity].
  cbn [truthy own_props].
  rewrite (delete_id _ "_id") by (rewrite lookup_fmap, lookup_delete_eq; reflexivity).
  rewrite <- !stripTags_object.
  apply (stripTags_compose_depth sanitize sanitize sanitize Hidem
           (S (depth (VObj (delete "_id" (own_props (req_body st))))))).
  lia.
Qed.

End SanitizeTwice.

Lemma sanitizeBody_outcome_witness :
  req_body (snd (sanitizeBody (fun s => "sanitized(" ++ s ++ ")")
                   (mkBodyState VUndefined 0))) = VUndefined /\
  exists o,
    req_body (snd (sanitizeBody (fun s => "sanitized(" ++ s ++ ")")
                     (mkBodyState (VObj {[ "_id" := VStr "abc123" ]}) 0))) = VObj o /\
    dom o = (∅ : gset string).
Proof.
  split.
  - apply (sanitizeBody_outcome (fun s => "sanitized(" ++ s ++ ")") (mkBodyState VUndefined 0)).
    reflexivity.
  - destruct (sanitizeBody_outcome (fun s => "sanitized(" ++ s ++ ")")
                (mkBodyState (VObj {[ "_id" := VStr "abc123" ]}) 0)) as (_ & _ & _ & H).
    destruct (H eq_refl) as (o & Ho & Hd). exists o. split; [exact Ho|].
    rewrite Hd. vm_compute. reflexivity.
Defined.

Lemma sanitizeBody_top_level_witness :
  exists o,
    req_body (snd (sanitizeBody (fun s => "sanitized(" ++ s ++ ")")
                     (mkBodyState
                        (VObj {[ "_id" := VStr "123abc"; "email" := VStr "test@example.com" ]})
                        0))) = VObj o /\
    o !! "_id" = None /\
    o !! "email" = Some (VStr "sanitized(test@example.com)").
Proof.
  destruct (sanitizeBody_top_level (fun s => "sanitized(" ++ s ++ ")")
              (mkBodyState
                 (VObj {[ "_id" := VStr "123abc"; "email" := VStr "test@example.com" ]}) 0)
              "email" (VStr "test@example.com"))
    as (o & Ho & Hid & Hstr & _); [reflexivity | discriminate | reflexivity |].
  exists o. split; [exact Ho|]. split; [exact Hid|].
  apply (Hstr "test@example.com"). reflexivity.
Defined.

Lemma stripTags_array_elements_witness :
  exists o' elems',
    stripTags (fun s => "sanitized(" ++ s ++ ")")
      (VObj {[ "tags" := VArr [VStr "<important>"; VArr [VStr "<urgent>"]] ]}) = VObj o' /\
    o' !! "tags" = Some (VArr elems') /\
    elems' !! 0%nat = Some (VStr "sanitized(<important>)") /\
    elems' !! 1%nat = Some (VArr [VStr "<urgent>"]).
Proof.
  destruct (stripTags_array_elements (fun s => "sanitized(" ++ s ++ ")")
              {[ "tags" := VArr [VStr "<important>"; VArr [VStr "<urgent>"]] ]}
              "tags" [VStr "<important>"; VArr [VStr "<urgent>"]])
    as (o' & elems' & Ho & Hk & _ & Hstr & Harr); [reflexivity|].
  exists o', elems'. split; [exact Ho|]. split; [exact Hk|]. split.
  - apply (Hstr 0%nat "<important>"). reflexivity.
  - apply (Harr 1%nat [VStr "<urgent>"]). reflexivity.
Defined.

Lemma stripTags_compose_witness :
  stripTags (fun s => "b(" ++ s ++ ")")
    (stripTags (fun s => "a(" ++ s ++ ")")
       (VObj {[ "user" := VObj {[ "name" := VStr "<b>Admin</b>" ]} ]}))
  = stripTags (fun s => "b(" ++ ("a(" ++ s ++ ")") ++ ")")
      (VObj {[ "user" := VObj {[ "name" := VStr "<b>Admin</b>" ]} ]}).
Proof.
  apply (stripTags_compose (fun s => "a(" ++ s ++ ")") (fun s => "b(" ++ s ++ ")")
           (fun s => "b(" ++ ("a(" ++ s ++ ")") ++ ")")).
  intros s. reflexivity.
Defined.

Lemma sanitizeBody_idempotent_witness :
  req_body (snd (sanitizeBody (fun s => s)
                   (snd (sanitizeBody (fun s => s)
                           (mkBodyState (VObj {[ "_id" := VStr "x"; "n" := VNum 1 ]}) 0)))))
  = req_body (snd (sanitizeBody (fun s => s)
                     (mkBodyState (VObj {[ "_id" := VStr "x"; "n" := VNum 1 ]}) 0))).
Proof.
  apply (sanitizeBody_idempotent (fun s => s)
           (mkBodyState (VObj {[ "_id" := VStr "x"; "n" := VNum 1 ]}) 0)).
  intros s. reflexivity.
Defined.
